(** * City Explorer back end: the cache-aside handlers of [server.js]

    A shallow embedding of [server.js]: the two SQL helpers
    ([getDataFromDB], [saveDataToDB]), the freshness check
    ([checkTimeouts]), the five route handlers and the data-model
    constructors.  A handler is a state transformer over a [World]
    made of the row store and the trace of what the handler did
    (statements sent to the database client, upstream requests,
    console output, the HTTP response). *)

From Stdlib Require Import ZArith List String Ascii Bool Lia.
From Stdlib Require Import DecimalString.
Import ListNotations.
Local Open Scope string_scope.
Local Open Scope Z_scope.

(** ** JavaScript values *)

Module JS.

(** The scalar values the handlers move around.  Numbers are the
    integers (millisecond clocks, counters, ids) and [JNaN]. *)
Inductive jsval :=
| JUndefined
| JNull
| JNaN
| JNum (n : Z)
| JStr (s : string).

(** An object is its own properties in insertion order, which is the
    order [Object.keys] and [Object.values] list them in. *)
Definition obj := list (string * jsval).

(** [if (v)] *)
Definition truthy (v : jsval) : bool :=
  match v with
  | JUndefined | JNull | JNaN => false
  | JNum n => negb (n =? 0)
  | JStr s => negb (s =? "")%string
  end.

Definition string_of_Z (n : Z) : string :=
  NilZero.string_of_int (Z.to_int n).

(** Template-literal interpolation [`${v}`]. *)
Definition to_string (v : jsval) : string :=
  match v with
  | JUndefined => "undefined"
  | JNull => "null"
  | JNaN => "NaN"
  | JNum n => string_of_Z n
  | JStr s => s
  end.

(** Numeric conversion, [None] standing for NaN.  A string is read
    as a number when it is an optional minus sign followed by decimal
    digits, the form in which the database client hands back a BIGINT
    column, and the empty string is 0.  JavaScript reads more strings
    as numbers (blanks around, a plus sign, fractions, exponents,
    hexadecimal); they are outside the integers of this model, and
    the statements below that depend on an age take the timestamp as
    a number. *)
Definition to_number (v : jsval) : option Z :=
  match v with
  | JUndefined | JNaN => None
  | JNull => Some 0
  | JNum n => Some n
  | JStr s =>
      if (s =? "")%string then Some 0
      else option_map Z.of_int (NilZero.int_of_string s)
  end.

(** [a - b] *)
Definition sub (a b : jsval) : jsval :=
  match to_number a, to_number b with
  | Some x, Some y => JNum (x - y)
  | _, _ => JNaN
  end.

(** [a * b] *)
Definition mul (a b : jsval) : jsval :=
  match to_number a, to_number b with
  | Some x, Some y => JNum (x * y)
  | _, _ => JNaN
  end.

(** [a > b] where [a] is a number: false as soon as one side is NaN. *)
Definition gt (a b : jsval) : bool :=
  match to_number a, to_number b with
  | Some x, Some y => x >? y
  | _, _ => false
  end.

(** [o[k]], [undefined] for a property the object does not have. *)
Fixpoint get (o : obj) (k : string) : jsval :=
  match o with
  | [] => JUndefined
  | (k', v) :: o' => if (k' =? k)%string then v else get o' k
  end.

Fixpoint has (o : obj) (k : string) : bool :=
  match o with
  | [] => false
  | (k', _) :: o' => (k' =? k)%string || has o' k
  end.

(** [o[k] = v]: overwrites in place, or adds the property last. *)
Fixpoint set (o : obj) (k : string) (v : jsval) : obj :=
  match o with
  | [] => [(k, v)]
  | (k', v') :: o' =>
      if (k' =? k)%string then (k', v) :: o' else (k', v') :: set o' k v
  end.

Definition keys (o : obj) : list string := map fst o.
Definition values (o : obj) : list jsval := map snd o.

(** [xs.join()], the separator defaulting to a comma. *)
Definition join (xs : list string) : string := String.concat "," xs.

End JS.
Import JS.

(** ** The SQL helpers *)

(** The [sqlInfo] object the handlers build and pass around.  A
    property that was never assigned reads as [JUndefined]; [columns]
    and [values] are only read after a handler has assigned them. *)
Record SqlInfo := mkSqlInfo {
  searchQuery : jsval;
  id : jsval;
  endpoint : string;
  columns : string;
  values : list jsval
}.

(** What [client.query(sql, values)] is called with. *)
Record Query := mkQuery {
  sql : string;
  params : list jsval
}.

(** [getDataFromDB]: the SELECT statement and its bound values.  (The
    [try]/[catch] around [client.query] only guards a synchronous
    throw of the client and is left out.) *)
Definition getDataFromDB_query (sqlInfo : SqlInfo) : Query :=
  let '(condition, vals) :=
    if truthy (searchQuery sqlInfo)
    then ("search_query", [searchQuery sqlInfo])
    else ("location_id", [id sqlInfo]) in
  {| sql := "SELECT * FROM " ++ endpoint sqlInfo ++ " WHERE " ++ condition ++ "=$1;";
     params := vals |}.

(** The placeholders [$1 .. $n] pushed by the [for] loop. *)
Definition placeholders (n : nat) : list string :=
  map (fun i => "$" ++ string_of_Z (Z.of_nat i)) (seq 1 n).

(** [saveDataToDB]: the INSERT statement and its bound values. *)
Definition saveDataToDB_query (sqlInfo : SqlInfo) : Query :=
  let sqlParams := join (placeholders (List.length (values sqlInfo))) in
  let text :=
    if truthy (searchQuery sqlInfo)
    then "INSERT INTO " ++ endpoint sqlInfo ++ " (" ++ columns sqlInfo
         ++ ") VALUES (" ++ sqlParams ++ ") RETURNING ID;"
    else "INSERT INTO " ++ endpoint sqlInfo ++ " (" ++ columns sqlInfo
         ++ ") VALUES (" ++ sqlParams ++ ");" in
  {| sql := text; params := values sqlInfo |}.

(** ** The row store *)

(** Modelled from the spec: the Row Store behind [client], a PostgreSQL
    database whose schema file is not among the sources.  One table per
    resource type; a row has a store-assigned [id], the two nullable
    key columns [search_query] and [location_id], a [created_at]
    column and one column per canonical field.  The model understands
    the three statement shapes the program sends and runs them in the
    order they are sent, as the single client connection does. *)
Module Store.

Inductive Statement :=
| SelectAll (table column : string)
| InsertRow (table : string) (cols : list string) (returning_id : bool)
| DeleteRows (table column : string).

Definition strip_prefix (p s : string) : option string :=
  if String.prefix p s
  then Some (substring (String.length p) (String.length s - String.length p) s)
  else None.

Definition strip_suffix (p s : string) : option string :=
  let n := (String.length s - String.length p)%nat in
  if (String.length p <=? String.length s)%nat && (substring n (String.length p) s =? p)%string
  then Some (substring 0 n s)
  else None.

(** Cuts [s] at the first occurrence of [sep]. *)
Definition split_at (sep s : string) : option (string * string) :=
  match index 0 sep s with
  | Some n =>
      Some (substring 0 n s,
            substring (n + String.length sep)
                      (String.length s - n - String.length sep) s)
  | None => None
  end.

Fixpoint split_on (c : ascii) (s : string) : list string :=
  match s with
  | EmptyString => [EmptyString]
  | String a s' =>
      if Ascii.eqb a c then EmptyString :: split_on c s'
      else match split_on c s' with
           | x :: xs => String a x :: xs
           | [] => [String a EmptyString]
           end
  end.

Definition parse_where (make : string -> string -> Statement) (s : string)
  : option Statement :=
  match split_at " WHERE " s with
  | Some (table, rest) =>
      match strip_suffix "=$1;" rest with
      | Some column => Some (make table column)
      | None => None
      end
  | None => None
  end.

Definition parse_insert (s : string) : option Statement :=
  match split_at " (" s with
  | Some (table, rest) =>
      match split_at ") VALUES (" rest with
      | Some (cols, tail) =>
          match strip_suffix ") RETURNING ID;" tail with
          | Some _ => Some (InsertRow table (split_on "," cols) true)
          | None =>
              match strip_suffix ");" tail with
              | Some _ => Some (InsertRow table (split_on "," cols) false)
              | None => None
              end
          end
      | None => None
      end
  | None => None
  end.

Definition parse (text : string) : option Statement :=
  match strip_prefix "SELECT * FROM " text with
  | Some s => parse_where SelectAll s
  | None =>
      match strip_prefix "DELETE FROM " text with
      | Some s => parse_where DeleteRows s
      | None =>
          match strip_prefix "INSERT INTO " text with
          | Some s => parse_insert s
          | None => None
          end
      end
  end.

(** Modelled from the spec: the persisted state, one table of rows per
    resource type, and the next [id] the store hands out. *)
Record t := mk {
  tables : list (string * list obj);
  next_id : Z
}.

Fixpoint table (ts : list (string * list obj)) (name : string) : list obj :=
  match ts with
  | [] => []
  | (n, rs) :: ts' => if (n =? name)%string then rs else table ts' name
  end.

Fixpoint set_table (ts : list (string * list obj)) (name : string)
         (rs : list obj) : list (string * list obj) :=
  match ts with
  | [] => [(name, rs)]
  | (n, rs') :: ts' =>
      if (n =? name)%string then (n, rs) :: ts'
      else (n, rs') :: set_table ts' name rs
  end.

Definition rows_of (st : t) (name : string) : list obj :=
  table (tables st) name.

(** What the client binds for a JavaScript value: [undefined] goes
    out as NULL. *)
Definition bind_value (v : jsval) : jsval :=
  match v with
  | JUndefined => JNull
  | _ => v
  end.

(** SQL [column = $1]: never true on NULL, otherwise equality of the
    two values as written. *)
Definition sql_eq (cell param : jsval) : bool :=
  match cell, bind_value param with
  | JNull, _ | JUndefined, _ | _, JNull => false
  | c, p => (to_string c =? to_string p)%string
  end.

Definition first_param (ps : list jsval) : jsval := nth 0 ps JUndefined.

Definition matches (column : string) (ps : list jsval) (row : obj) : bool :=
  sql_eq (get row column) (first_param ps).

Definition system_columns : list string :=
  ["search_query"; "location_id"; "created_at"].

(** Modelled from the spec: the row an INSERT creates, with the fresh
    id, the listed columns, and NULL in the key and timestamp columns
    the statement left out. *)
Definition new_row (ident : Z) (cols : list string) (ps : list jsval) : obj :=
  let given := combine cols (map bind_value ps) in
  ("id", JNum ident) :: given
    ++ map (fun c => (c, JNull))
           (filter (fun c => negb (has given c)) system_columns).

(** What a query resolves to: [result.rowCount] and [result.rows]. *)
Record Result := mkResult {
  rowCount : Z;
  rows : list obj
}.

Definition select (st : t) (tb column : string) (ps : list jsval) : Result :=
  let hits := filter (matches column ps) (rows_of st tb) in
  {| rowCount := Z.of_nat (List.length hits); rows := hits |}.

Definition insert (st : t) (tb : string) (cols : list string)
           (returning : bool) (ps : list jsval) : t * Result :=
  let row := new_row (next_id st) cols ps in
  ({| tables := set_table (tables st) tb (rows_of st tb ++ [row]);
      next_id := next_id st + 1 |},
   {| rowCount := 1;
      rows := if returning then [[("id", JNum (next_id st))]] else [] |}).

Definition delete (st : t) (tb column : string) (ps : list jsval) : t * Result :=
  let gone := filter (matches column ps) (rows_of st tb) in
  let kept := filter (fun r => negb (matches column ps r)) (rows_of st tb) in
  ({| tables := set_table (tables st) tb kept; next_id := next_id st |},
   {| rowCount := Z.of_nat (List.length gone); rows := [] |}).

(** Modelled from the spec: running one statement.  A text that is none
    of the three shapes changes nothing and yields no rows. *)
Definition run (st : t) (text : string) (ps : list jsval) : t * Result :=
  match parse text with
  | Some (SelectAll tb column) => (st, select st tb column ps)
  | Some (InsertRow tb cols returning) => insert st tb cols returning ps
  | Some (DeleteRows tb column) => delete st tb column ps
  | None => (st, {| rowCount := 0; rows := [] |})
  end.

End Store.

(** ** The world a handler runs in *)

(** What [response.send] is given. *)
Inductive Body :=
| BUndefined
| BText (s : string)
| BObject (o : obj)
| BArray (os : list obj).

(** An argument of [console.log]. *)
Inductive LogArg :=
| LVal (v : jsval)
| LObject (o : obj).

(** What a handler does that is visible outside it, in the order it
    does it. *)
Inductive Effect :=
| EQuery (q : Query)                  (* client.query(sql, values) *)
| EFetch (url : string)               (* superagent.get(url) *)
| ELog (args : list LogArg)           (* console.log(...) *)
| EError (err : jsval)                (* console.error(err) *)
| ESend (status : Z) (body : Body).   (* response[.status(s)].send(body) *)

(** The store, the clock [Date.now()] reads (one reading serves a whole
    request) and the trace so far. *)
Record World := mkWorld {
  store : Store.t;
  clock : Z;
  trace : list Effect
}.

(** A computation that reads and changes the world. *)
Definition M (A : Type) : Type := World -> A * World.

Definition ret {A} (a : A) : M A := fun w => (a, w).

Definition bind {A B} (m : M A) (k : A -> M B) : M B :=
  fun w => let (a, w') := m w in k a w'.

Notation "x <- m ;; k" := (bind m (fun x => k))
  (at level 61, m at next level, right associativity).
Notation "m ;; k" := (bind m (fun _ => k))
  (at level 61, right associativity).

(** A world with the same store and clock and a longer trace. *)
Definition extend (w : World) (es : list Effect) : World :=
  {| store := store w; clock := clock w; trace := trace w ++ es |}.

Definition emit (e : Effect) : M unit := fun w => (tt, extend w [e]).

Definition Date_now : M Z := fun w => (clock w, w).

(** [client.query(sql, values)]: the statement is recorded and run on
    the store; the value is what the returned promise resolves to.  The
    promise is taken to resolve: a statement the database refuses is
    not part of this model. *)
Definition client_query (q : Query) : M Store.Result :=
  fun w =>
    let (st, r) := Store.run (store w) (sql q) (params q) in
    (r, {| store := st; clock := clock w; trace := trace w ++ [EQuery q] |}).

Fixpoint mapM {A B} (f : A -> M B) (xs : list A) : M (list B) :=
  match xs with
  | [] => ret []
  | x :: xs' => y <- f x ;; ys <- mapM f xs' ;; ret (y :: ys)
  end.

Definition exec {A} (m : M A) (w : World) : World := snd (m w).

(** ** The helpers, as actions *)

Definition handleError (err : jsval) (res : bool) : M unit :=
  emit (EError err) ;;
  if res then emit (ESend 500 (BText "Sorry, something went wrong")) else ret tt.

Definition getDataFromDB (sqlInfo : SqlInfo) : M Store.Result :=
  client_query (getDataFromDB_query sqlInfo).

Definition saveDataToDB (sqlInfo : SqlInfo) : M Store.Result :=
  client_query (saveDataToDB_query sqlInfo).

(** ** Cache invalidation *)

(** The [timeouts] object of [checkTimeouts], read as
    [timeouts[name]].  A name that is not one of its five keys reads as
    [undefined] (or as a member of [Object.prototype], which compares
    with a number exactly as [undefined] does: it is not a number). *)
Definition timeouts (name : string) : jsval :=
  if (name =? "weather")%string then JNum (15 * 1000)
  else if (name =? "yelp")%string then JNum (24 * 1000 * 60 * 60)
  else if (name =? "movie")%string then JNum (30 * 1000 * 60 * 60 * 24)
  else if (name =? "event")%string then JNum (6 * 1000 * 60 * 60)
  else if (name =? "trail")%string then JNum (7 * 1000 * 60 * 60 * 24)
  else JUndefined.

(** How a function call ends. *)
Inductive Completion (A : Type) :=
| Returned (a : A)
| Threw (e : string).
Arguments Returned {A} a.
Arguments Threw {A} e.

Definition delete_query (sqlInfo : SqlInfo) : Query :=
  {| sql := "DELETE FROM " ++ endpoint sqlInfo ++ " WHERE location_id=$1;";
     params := [id sqlInfo] |}.

(** [checkTimeouts(sqlInfo, sqlData)]: [Returned (Some sqlData)] when it
    returns the data, [Returned None] when it returns [undefined]. *)
Definition checkTimeouts (sqlInfo : SqlInfo) (sqlData : Store.Result)
  : M (Completion (option Store.Result)) :=
  if Store.rowCount sqlData >? 0 then
    match Store.rows sqlData with
    | [] => ret (Threw "TypeError")
    | first :: _ =>
        now <- Date_now ;;
        let ageOfResults := sub (JNum now) (get first "created_at") in
        emit (ELog [LVal (JStr (endpoint sqlInfo)); LVal (JStr " AGE:");
                    LVal ageOfResults]) ;;
        emit (ELog [LVal (JStr (endpoint sqlInfo)); LVal (JStr " Timeout:");
                    LVal (timeouts (endpoint sqlInfo))]) ;;
        if gt ageOfResults (timeouts (endpoint sqlInfo)) then
          client_query (delete_query sqlInfo) ;;
          ret (Returned None)
        else ret (Returned (Some sqlData))
    end
  else ret (Returned None).

(** ** What lies outside the program *)

(** The process environment and the one library function whose result
    depends on the host: the text of a [Date]. *)
Record Host := mkHost {
  GEOCODE_API_KEY : jsval;
  WEATHER_API_KEY : jsval;
  EVENTBRITE_API_KEY : jsval;
  MOVIE_API_KEY : jsval;
  YELP_API_KEY : jsval;
  (** [new Date(x).toString()] *)
  Date_toString : jsval -> string
}.

(** The records of an upstream answer, with the properties the
    constructors read.  A record is taken to have the objects the
    constructors reach into ([name], [start], [geometry]) and a string
    as [overview]. *)
Module Upstream.

(** [result.body.results[i]] of the geocoder *)
Record Place := mkPlace {
  formatted_address : jsval;
  geometry_location_lat : jsval;
  geometry_location_lng : jsval
}.

(** [weatherResults.body.daily.data[i]] *)
Record Day := mkDay {
  day_summary : jsval;
  day_time : jsval
}.

(** [eventResults.body.events[i]] *)
Record Happening := mkHappening {
  event_url : jsval;
  event_name_text : jsval;
  event_start_local : jsval;
  event_summary : jsval
}.

(** [movieResults.body.results[i]] *)
Record Film := mkFilm {
  original_title : jsval;
  overview : string;
  votes_average : jsval;
  vote_count : jsval;
  poster_path : jsval;
  popularity : jsval;
  release_date : jsval
}.

(** [yelpResults.body.businesses[i]] *)
Record Business := mkBusiness {
  biz_name : jsval;
  biz_image_url : jsval;
  biz_price : jsval;
  biz_rating : jsval;
  biz_url : jsval
}.

(** What the promise of [superagent.get(url)] settles to. *)
Inductive Answer (A : Type) :=
| Rejected (err : jsval)
| Resolved (records : list A).
Arguments Rejected {A} err.
Arguments Resolved {A} records.

End Upstream.
Import Upstream.

(** ** Data models *)

Definition Location (query : jsval) (location : Place) : obj :=
  [ ("search_query", query);
    ("formatted_query", formatted_address location);
    ("latitude", geometry_location_lat location);
    ("longitude", geometry_location_lng location) ].

Definition Weather (host : Host) (day : Day) : M obj :=
  now <- Date_now ;;
  ret [ ("forecast", day_summary day);
        ("time", JStr (substring 0 15 (Date_toString host (mul (day_time day) (JNum 1000)))));
        ("created_at", JNum now) ].

Definition Event (host : Host) (event : Happening) : M obj :=
  ret [ ("link", event_url event);
        ("name", event_name_text event);
        ("event_date", JStr (substring 0 15 (Date_toString host (event_start_local event))));
        ("summary", event_summary event) ].

Definition Movie (movie : Film) : M obj :=
  now <- Date_now ;;
  ret [ ("title", original_title movie);
        ("overview", JStr (substring 0 750 (overview movie)));
        ("average_votes", votes_average movie);
        ("total_votes", vote_count movie);
        ("image_url", JStr ("https://image.tmdb.org/t/p/original" ++ to_string (poster_path movie)));
        ("popularity", popularity movie);
        ("released_on", release_date movie);
        ("created_at", JNum now) ].

Definition Yelp (yelp : Business) : M obj :=
  now <- Date_now ;;
  ret [ ("name", biz_name yelp);
        ("image_url", biz_image_url yelp);
        ("price", biz_price yelp);
        ("rating", biz_rating yelp);
        ("url", biz_url yelp);
        ("created_at", JNum now) ].

(** ** Route handlers *)

(** [sqlInfo.columns = Object.keys(o).join(); sqlInfo.values = Object.values(o);] *)
Definition with_record (sqlInfo : SqlInfo) (o : obj) : SqlInfo :=
  {| searchQuery := searchQuery sqlInfo; id := id sqlInfo;
     endpoint := endpoint sqlInfo;
     columns := join (keys o); values := JS.values o |}.

(** [rows[0]] as a response body *)
Definition first_body (rs : list obj) : Body :=
  match rs with
  | [] => BUndefined
  | r :: _ => BObject r
  end.

(** [searchToLatLong]; [data] is [request.query.data], [answer] what the
    geocoder says if it is asked. *)
Definition searchToLatLong (host : Host) (data : jsval) (answer : Answer Place)
  : M unit :=
  let sqlInfo := {| searchQuery := data; id := JUndefined;
                    endpoint := "locations"; columns := ""; values := [] |} in
  result <- getDataFromDB sqlInfo ;;
  if Store.rowCount result >? 0 then
    emit (ESend 200 (first_body (Store.rows result)))
  else
    emit (EFetch ("https://maps.googleapis.com/maps/api/geocode/json?address="
                  ++ to_string data ++ "&key=" ++ to_string (GEOCODE_API_KEY host))) ;;
    match answer with
    | Rejected error => handleError error true
    | Resolved [] => handleError (JStr "NO DATA") true
    | Resolved (first :: _) =>
        let location := Location (searchQuery sqlInfo) first in
        saved <- saveDataToDB (with_record sqlInfo location) ;;
        match Store.rows saved with
        | [] => ret tt  (* data.rows[0].id throws in a promise nobody catches *)
        | row :: _ => emit (ESend 200 (BObject (set location "id" (get row "id"))))
        end
    end.

(** [getWeather]; [data] is the object [request.query.data]. *)
Definition getWeather (host : Host) (data : obj) (answer : Answer Day) : M unit :=
  let sqlInfo := {| searchQuery := JUndefined; id := get data "id";
                    endpoint := "weathers"; columns := ""; values := [] |} in
  d <- getDataFromDB sqlInfo ;;
  checked <- checkTimeouts sqlInfo d ;;
  match checked with
  | Threw _ => ret tt
  | Returned (Some result) => emit (ESend 200 (BArray (Store.rows result)))
  | Returned None =>
      emit (EFetch ("https://api.darksky.net/forecast/" ++ to_string (WEATHER_API_KEY host)
                    ++ "/" ++ to_string (get data "latitude")
                    ++ "," ++ to_string (get data "longitude"))) ;;
      match answer with
      | Rejected error => handleError error true
      | Resolved records =>
          emit (ELog [LVal (JStr "Weather from API")]) ;;
          match records with
          | [] => handleError (JStr "NO DATA") true
          | _ =>
              summaries <- mapM (fun day =>
                summary <- Weather host day ;;
                let summary := set summary "location_id" (id sqlInfo) in
                saveDataToDB (with_record sqlInfo summary) ;;
                ret summary) records ;;
              emit (ESend 200 (BArray summaries))
          end
      end
  end.

Definition getEvents (host : Host) (data : obj) (answer : Answer Happening) : M unit :=
  let sqlInfo := {| searchQuery := JUndefined; id := get data "id";
                    endpoint := "events"; columns := ""; values := [] |} in
  d <- getDataFromDB sqlInfo ;;
  checked <- checkTimeouts sqlInfo d ;;
  match checked with
  | Threw _ => ret tt
  | Returned (Some result) => emit (ESend 200 (BArray (Store.rows result)))
  | Returned None =>
      emit (EFetch ("https://www.eventbriteapi.com/v3/events/search/?token="
                    ++ to_string (EVENTBRITE_API_KEY host)
                    ++ "&location.latitude=" ++ to_string (get data "latitude")
                    ++ "&location.longitude=" ++ to_string (get data "longitude"))) ;;
      match answer with
      | Rejected error => handleError error true
      | Resolved records =>
          emit (ELog [LVal (JStr "Event from API")]) ;;
          match records with
          | [] => handleError (JStr "NO DATA") true
          | _ =>
              summaries <- mapM (fun event =>
                summary <- Event host event ;;
                let summary := set summary "location_id" (id sqlInfo) in
                saveDataToDB (with_record sqlInfo summary) ;;
                ret summary) records ;;
              emit (ESend 200 (BArray summaries))
          end
      end
  end.

(** [getMovies]; on a result it sends [result.row], a property the
    query result does not have.  [console.log(request.query)] is shown
    by the [data] object inside it. *)
Definition getMovies (host : Host) (data : obj) (answer : Answer Film) : M unit :=
  let sqlInfo := {| searchQuery := JUndefined; id := get data "id";
                    endpoint := "movies"; columns := ""; values := [] |} in
  d <- getDataFromDB sqlInfo ;;
  checked <- checkTimeouts sqlInfo d ;;
  match checked with
  | Threw _ => ret tt
  | Returned (Some result) => emit (ESend 200 BUndefined)
  | Returned None =>
      emit (ELog [LVal (JStr "=================")]) ;;
      emit (ELog [LObject data]) ;;
      emit (EFetch ("https://api.themoviedb.org/3/search/movie?api_key="
                    ++ to_string (MOVIE_API_KEY host)
                    ++ "&language=en-US&query=" ++ to_string (get data "search_query")
                    ++ "&page=1&include_adult=false")) ;;
      match answer with
      | Rejected error => handleError error true
      | Resolved records =>
          emit (ELog [LVal (JStr "Movie in API")]) ;;
          match records with
          | [] => handleError (JStr "NO DATA") true
          | _ =>
              summaries <- mapM (fun movie =>
                summary <- Movie movie ;;
                let summary := set summary "location_id" (id sqlInfo) in
                saveDataToDB (with_record sqlInfo summary) ;;
                ret summary) records ;;
              emit (ESend 200 (BArray summaries))
          end
      end
  end.

(** [getYelp]; the Authorization header set on the upstream request is
    not part of the trace. *)
Definition getYelp (host : Host) (data : obj) (answer : Answer Business) : M unit :=
  let sqlInfo := {| searchQuery := JUndefined; id := get data "id";
                    endpoint := "yelps"; columns := ""; values := [] |} in
  d <- getDataFromDB sqlInfo ;;
  checked <- checkTimeouts sqlInfo d ;;
  match checked with
  | Threw _ => ret tt
  | Returned (Some result) => emit (ESend 200 (BArray (Store.rows result)))
  | Returned None =>
      emit (EFetch ("https://api.yelp.com/v3/businesses/search?latitude="
                    ++ to_string (get data "latitude")
                    ++ "&longitude=" ++ to_string (get data "longitude"))) ;;
      match answer with
      | Rejected err => handleError err true
      | Resolved records =>
          match records with
          | [] => handleError (JStr "NO DATA") true
          | _ =>
              summaries <- mapM (fun biz =>
                summary <- Yelp biz ;;
                let summary := set summary "location_id" (id sqlInfo) in
                emit (ELog [LObject summary]) ;;
                saveDataToDB (with_record sqlInfo summary) ;;
                ret summary) records ;;
              emit (ESend 200 (BArray summaries))
          end
      end
  end.

(** ** Routes *)

(** One request to one of the five routes, together with what the
    route's upstream provider answers if the handler asks it. *)
Inductive Call :=
| GetLocation (data : jsval) (answer : Answer Place)   (* /location *)
| GetWeather (data : obj) (answer : Answer Day)        (* /weather *)
| GetEvents (data : obj) (answer : Answer Happening)   (* /events *)
| GetMovies (data : obj) (answer : Answer Film)        (* /movies *)
| GetYelp (data : obj) (answer : Answer Business).     (* /yelp *)

Definition serve (host : Host) (c : Call) : M unit :=
  match c with
  | GetLocation data answer => searchToLatLong host data answer
  | GetWeather data answer => getWeather host data answer
  | GetEvents data answer => getEvents host data answer
  | GetMovies data answer => getMovies host data answer
  | GetYelp data answer => getYelp host data answer
  end.

(** * The vocabulary of the properties *)

Local Open Scope list_scope.

(** ** Reading a trace *)

Definition queries (tr : list Effect) : list Query :=
  flat_map (fun e => match e with EQuery q => [q] | _ => [] end) tr.

Definition fetches (tr : list Effect) : list string :=
  flat_map (fun e => match e with EFetch u => [u] | _ => [] end) tr.

(** What the caller of the route sees: the responses. *)
Definition responses (tr : list Effect) : list (Z * Body) :=
  flat_map (fun e => match e with ESend s b => [(s, b)] | _ => [] end) tr.

(** The debug line by which [checkTimeouts] shows it is judging a hit. *)
Definition is_age_line (e : Effect) : bool :=
  match e with
  | ELog [LVal _; LVal (JStr label); LVal _] => (label =? " AGE:")%string
  | _ => false
  end.

Definition evaluated (tr : list Effect) : bool := existsb is_age_line tr.

(** A debug line of [checkTimeouts]. *)
Definition is_check_line (e : Effect) : bool :=
  match e with
  | ELog [LVal _; LVal (JStr label); LVal _] =>
      (label =? " AGE:")%string || (label =? " Timeout:")%string
  | _ => false
  end.

(** The step of the cache-aside sequence an effect belongs to: 0 the
    store lookup, 1 the freshness check (its debug lines and its
    DELETE), 2 the upstream request, 3 an INSERT, 4 the response.
    Other console output belongs to no step. *)
Definition phase (e : Effect) : option nat :=
  match e with
  | EQuery q =>
      match Store.parse (sql q) with
      | Some (Store.SelectAll _ _) => Some 0%nat
      | Some (Store.DeleteRows _ _) => Some 1%nat
      | Some (Store.InsertRow _ _ _) => Some 3%nat
      | None => None
      end
  | ELog _ => if is_check_line e then Some 1%nat else None
  | EError _ => None
  | EFetch _ => Some 2%nat
  | ESend _ _ => Some 4%nat
  end.

Definition steps (tr : list Effect) : list nat :=
  flat_map (fun e => match phase e with Some n => [n] | None => [] end) tr.

(** Steps never go back, and only the check (its two debug lines and
    its DELETE) and the inserts may take several effects in a row. *)
Fixpoint in_order (l : list nat) : bool :=
  match l with
  | a :: (b :: _) as l' =>
      ((a <? b) || ((a =? b) && ((a =? 1) || (a =? 3))))%nat && in_order l'
  | _ => true
  end.

(** Console output outside the freshness check. *)
Definition chatter (e : Effect) : bool :=
  match e with
  | ELog _ => negb (is_check_line e)
  | EError _ => true
  | _ => false
  end.





(** The caller tells two runs apart when the responses differ. *)
Definition distinguishable (tr1 tr2 : list Effect) : Prop :=
  responses tr1 <> responses tr2.

(** ** Requests, and what the store holds for them *)

(** A request handled from store [st] when the clock reads [now]. *)
Definition fresh (st : Store.t) (now : Z) : World :=
  {| store := st; clock := now; trace := [] |}.

Definition run (host : Host) (c : Call) (st : Store.t) (now : Z) : World :=
  exec (serve host c) (fresh st now).

Definition location_info (data : jsval) : SqlInfo :=
  {| searchQuery := data; id := JUndefined; endpoint := "locations";
     columns := ""; values := [] |}.

Definition location_url (host : Host) (data : jsval) : string :=
  ("https://maps.googleapis.com/maps/api/geocode/json?address="
   ++ to_string data ++ "&key=" ++ to_string (GEOCODE_API_KEY host))%string.

(** The column and the value the location lookup binds. *)
Definition location_column (data : jsval) : string :=
  if truthy data then "search_query" else "location_id".

Definition location_key (data : jsval) : jsval :=
  if truthy data then data else JUndefined.

Definition table_of (c : Call) : string :=
  match c with
  | GetLocation _ _ => "locations"
  | GetWeather _ _ => "weathers"
  | GetEvents _ _ => "events"
  | GetMovies _ _ => "movies"
  | GetYelp _ _ => "yelps"
  end.

(** The column the lookup of a call compares, and the value it binds. *)
Definition key_column (c : Call) : string :=
  match c with
  | GetLocation data _ => location_column data
  | _ => "location_id"
  end.

Definition bound_key (c : Call) : jsval :=
  match c with
  | GetLocation data _ => location_key data
  | GetWeather data _ | GetEvents data _ | GetMovies data _ | GetYelp data _ =>
      get data "id"
  end.

(** The rows the store holds for the key of a call. *)
Definition stored_for (c : Call) (st : Store.t) : list obj :=
  Store.rows (Store.select st (table_of c) (key_column c) [bound_key c]).

(** The same request with an upstream that has nothing, or that fails. *)
Definition no_data (c : Call) : Call :=
  match c with
  | GetLocation data _ => GetLocation data (Resolved [])
  | GetWeather data _ => GetWeather data (Resolved [])
  | GetEvents data _ => GetEvents data (Resolved [])
  | GetMovies data _ => GetMovies data (Resolved [])
  | GetYelp data _ => GetYelp data (Resolved [])
  end.

Definition rejected (err : jsval) (c : Call) : Call :=
  match c with
  | GetLocation data _ => GetLocation data (Rejected err)
  | GetWeather data _ => GetWeather data (Rejected err)
  | GetEvents data _ => GetEvents data (Rejected err)
  | GetMovies data _ => GetMovies data (Rejected err)
  | GetYelp data _ => GetYelp data (Rejected err)
  end.

(** The body a route sends on a hit. *)
Definition hit_body (c : Call) (st : Store.t) : Body :=
  match c with
  | GetLocation _ _ => first_body (stored_for c st)
  | GetMovies _ _ => BUndefined
  | _ => BArray (stored_for c st)
  end.

(** The response that tells the caller something went wrong. *)
Definition failure : Z * Body := (500, BText "Sorry, something went wrong").

(** What the caller gets when upstream has nothing or fails. *)
Definition without_data (c : Call) (st : Store.t) : Z * Body :=
  match stored_for c st with
  | [] => failure
  | _ => (200, hit_body c st)
  end.

(** The statement the code sends first. *)
Definition lookup_of (c : Call) : Query :=
  {| sql := ("SELECT * FROM " ++ table_of c ++ " WHERE " ++ key_column c ++ "=$1;")%string;
     params := [bound_key c] |}.

(** The lookup as C5 words it: the column follows the key kind of the
    resource, the search-query column for the location resource and the
    location-id column for the others, and the key is the bound value. *)
Definition claimed_lookup (c : Call) : Query :=
  match c with
  | GetLocation data _ =>
      {| sql := "SELECT * FROM locations WHERE search_query=$1;"; params := [data] |}
  | GetWeather data _ | GetEvents data _ | GetMovies data _ | GetYelp data _ =>
      {| sql := ("SELECT * FROM " ++ table_of c ++ " WHERE location_id=$1;")%string;
         params := [get data "id"] |}
  end.

(** How many records upstream hands the handler of a call: all of them
    on the four routes keyed by location id, the first one only on the
    location route. *)
Definition upstream_records (c : Call) : nat :=
  match c with
  | GetLocation _ (Resolved (_ :: _)) => 1
  | GetWeather _ (Resolved records) => List.length records
  | GetEvents _ (Resolved records) => List.length records
  | GetMovies _ (Resolved records) => List.length records
  | GetYelp _ (Resolved records) => List.length records
  | _ => 0
  end%nat.

(** A key the store can match: anything but [undefined] and [null],
    which are bound as NULL. *)
Definition has_key (v : jsval) : bool :=
  match v with
  | JUndefined | JNull => false
  | _ => true
  end.



(** ** The shape the four handlers keyed by location id share *)

Fixpoint emits (es : list Effect) : M unit :=
  match es with
  | [] => ret tt
  | e :: es' => emit e ;; emits es'
  end.

(** The [sqlInfo] of a handler keyed by location id. *)
Definition keyed_by_id (tb : string) (key : jsval) : SqlInfo :=
  {| searchQuery := JUndefined; id := key; endpoint := tb;
     columns := ""; values := [] |}.

(** What [handleError] sends. *)
Definition apology : Effect := ESend 500 (BText "Sorry, something went wrong").

(** The two debug lines of a judged hit. *)
Definition age_lines (sqlInfo : SqlInfo) (w : World) (first : obj) : list Effect :=
  [ ELog [LVal (JStr (endpoint sqlInfo)); LVal (JStr " AGE:");
          LVal (sub (JNum (clock w)) (get first "created_at"))];
    ELog [LVal (JStr (endpoint sqlInfo)); LVal (JStr " Timeout:");
          LVal (timeouts (endpoint sqlInfo))] ].

Section Shape.

Context {A : Type}.
Variables (tb : string) (key : jsval).
Variable on_hit : Store.Result -> Body.
Variables (before : list Effect) (url : string) (banner : list Effect).
Variable make : Z -> A -> obj.
Variable noisy : bool.
Variable cols : list string.

(** The [map] callback of the four handlers: build the summary from
    the record, tag it with the location id, log it where the handler
    does, save it. *)
Definition summarize (x : A) : M obj :=
  now <- Date_now ;;
  let summary := set (make now x) "location_id" key in
  (if noisy then emit (ELog [LObject summary]) else ret tt) ;;
  saveDataToDB (with_record (keyed_by_id tb key) summary) ;;
  ret summary.

(** The body the four handlers have in common.  [before] and [banner]
    are what a handler writes to the console before the upstream
    request and once it is answered; [on_hit] is what it sends of a
    result [checkTimeouts] returned. *)
Definition cache_aside (answer : Answer A) : M unit :=
  d <- getDataFromDB (keyed_by_id tb key) ;;
  checked <- checkTimeouts (keyed_by_id tb key) d ;;
  match checked with
  | Threw _ => ret tt
  | Returned (Some result) => emit (ESend 200 (on_hit result))
  | Returned None =>
      emits before ;;
      emit (EFetch url) ;;
      match answer with
      | Rejected err => handleError err true
      | Resolved records =>
          emits banner ;;
          match records with
          | [] => handleError (JStr "NO DATA") true
          | _ => summaries <- mapM summarize records ;;
                 emit (ESend 200 (BArray summaries))
          end
      end
  end.

(** The summaries sent for the records of an answer. *)
Definition summaries_of (now : Z) (records : list A) : list obj :=
  map (fun x => set (make now x) "location_id" key) records.

(** What saving one summary adds to the trace. *)
Definition save_effects (s : obj) : list Effect :=
  (if noisy then [ELog [LObject s]] else [])
    ++ [EQuery (saveDataToDB_query (with_record (keyed_by_id tb key) s))].

(** The store after the inserts of the summaries, in order. *)
Definition insert_all (st : Store.t) (ss : list obj) : Store.t :=
  fold_left (fun st s => fst (Store.insert st tb cols false (JS.values s))) ss st.

Definition lookup_effect : Effect :=
  EQuery (getDataFromDB_query (keyed_by_id tb key)).

(** The world a run of the body ends in, written out by cases: a hit,
    or a miss and then what upstream answers. *)
Definition outcome (w : World) (answer : Answer A) : World :=
  let d := Store.select (store w) tb "location_id" [key] in
  match Store.rows d with
  | first :: _ =>
      extend w (lookup_effect :: age_lines (keyed_by_id tb key) w first
                  ++ [ESend 200 (on_hit d)])
  | [] =>
      let asked := lookup_effect :: before ++ [EFetch url] in
      match answer with
      | Rejected err => extend w (asked ++ [EError err; apology])
      | Resolved [] => extend w (asked ++ banner ++ [EError (JStr "NO DATA"); apology])
      | Resolved records =>
          let ss := summaries_of (clock w) records in
          {| store := insert_all (store w) ss;
             clock := clock w;
             trace := trace w ++ asked ++ banner
                        ++ flat_map save_effects ss ++ [ESend 200 (BArray ss)] |}
      end
  end.

(** Whether the store holds rows for the key. *)
Definition hit (w : World) : bool :=
  match Store.rows (Store.select (store w) tb "location_id" [key]) with
  | [] => false
  | _ => true
  end.

(** What the caller is sent when upstream has nothing or fails. *)
Definition settled (w : World) : Z * Body :=
  match Store.rows (Store.select (store w) tb "location_id" [key]) with
  | [] => failure
  | _ => (200, on_hit (Store.select (store w) tb "location_id" [key]))
  end.

End Shape.

(** ** The four handlers as instances of the shape, and the location handler *)

(** The object a constructor builds when the clock reads [now]. *)
Definition built (ctor : M obj) (now : Z) : obj :=
  fst (ctor {| store := Store.mk [] 0; clock := now; trace := [] |}).

Definition weather_url (host : Host) (data : obj) : string :=
  ("https://api.darksky.net/forecast/" ++ to_string (WEATHER_API_KEY host)
   ++ "/" ++ to_string (get data "latitude")
   ++ "," ++ to_string (get data "longitude"))%string.

Definition events_url (host : Host) (data : obj) : string :=
  ("https://www.eventbriteapi.com/v3/events/search/?token="
   ++ to_string (EVENTBRITE_API_KEY host)
   ++ "&location.latitude=" ++ to_string (get data "latitude")
   ++ "&location.longitude=" ++ to_string (get data "longitude"))%string.

Definition movies_url (host : Host) (data : obj) : string :=
  ("https://api.themoviedb.org/3/search/movie?api_key="
   ++ to_string (MOVIE_API_KEY host)
   ++ "&language=en-US&query=" ++ to_string (get data "search_query")
   ++ "&page=1&include_adult=false")%string.

Definition yelp_url (data : obj) : string :=
  ("https://api.yelp.com/v3/businesses/search?latitude="
   ++ to_string (get data "latitude")
   ++ "&longitude=" ++ to_string (get data "longitude"))%string.

Definition all_rows (result : Store.Result) : Body := BArray (Store.rows result).

Definition no_rows (result : Store.Result) : Body := BUndefined.

Definition weather_cols := ["forecast"; "time"; "created_at"; "location_id"].

Definition events_cols := ["link"; "name"; "event_date"; "summary"; "location_id"].

Definition movies_cols :=
  ["title"; "overview"; "average_votes"; "total_votes"; "image_url";
   "popularity"; "released_on"; "created_at"; "location_id"].

Definition yelp_cols :=
  ["name"; "image_url"; "price"; "rating"; "url"; "created_at"; "location_id"].

Definition location_cols :=
  ["search_query"; "formatted_query"; "latitude"; "longitude"].

Definition location_outcome (host : Host) (data : jsval) (answer : Answer Place)
           (w : World) : World :=
  let d := Store.select (store w) "locations" (location_column data) [location_key data] in
  let q := EQuery (getDataFromDB_query (location_info data)) in
  match Store.rows d with
  | first :: _ => extend w [q; ESend 200 (BObject first)]
  | [] =>
      let asked := [q; EFetch (location_url host data)] in
      match answer with
      | Rejected err => extend w (asked ++ [EError err; apology])
      | Resolved [] => extend w (asked ++ [EError (JStr "NO DATA"); apology])
      | Resolved (first :: _) =>
          let location := Location data first in
          {| store := fst (Store.insert (store w) "locations" location_cols
                             (truthy data) (JS.values location));
             clock := clock w;
             trace := trace w ++ asked
               ++ [EQuery (saveDataToDB_query (with_record (location_info data) location))]
               ++ (if truthy data
                   then [ESend 200 (BObject (set location "id" (JNum (Store.next_id (store w)))))]
                   else []) |}
      end
  end.

Definition served (host : Host) (c : Call) (w : World) : World :=
  match c with
  | GetLocation data answer => location_outcome host data answer w
  | GetWeather data answer =>
      outcome "weathers" (get data "id") all_rows
        [] (weather_url host data) [ELog [LVal (JStr "Weather from API")]]
        (fun now day => built (Weather host day) now) false weather_cols w answer
  | GetEvents data answer =>
      outcome "events" (get data "id") all_rows
        [] (events_url host data) [ELog [LVal (JStr "Event from API")]]
        (fun now event => built (Event host event) now) false events_cols w answer
  | GetMovies data answer =>
      outcome "movies" (get data "id") no_rows
        [ELog [LVal (JStr "=================")]; ELog [LObject data]]
        (movies_url host data) [ELog [LVal (JStr "Movie in API")]]
        (fun now movie => built (Movie movie) now) false movies_cols w answer
  | GetYelp data answer =>
      outcome "yelps" (get data "id") all_rows
        [] (yelp_url data) []
        (fun now biz => built (Yelp biz) now) true yelp_cols w answer
  end.

(** ** Sample requests *)

Module Sample.

Definition host : Host :=
  {| GEOCODE_API_KEY := JStr "geo-key";
     WEATHER_API_KEY := JStr "sky-key";
     EVENTBRITE_API_KEY := JStr "event-key";
     MOVIE_API_KEY := JStr "movie-key";
     YELP_API_KEY := JStr "yelp-key";
     Date_toString := fun _ => "Thu Jan 01 1970 00:00:00 GMT+0000 (UTC)" |}.

Definition empty : Store.t := Store.mk [] 1.

(** [request.query.data] of a request for location 42 *)
Definition seattle : obj :=
  [ ("id", JStr "42"); ("search_query", JStr "Seattle");
    ("latitude", JStr "47.6062"); ("longitude", JStr "-122.3321") ].

Definition place : Place :=
  mkPlace (JStr "Seattle, WA, USA") (JStr "47.6062") (JStr "-122.3321").

Definition three_days : list Day :=
  [ mkDay (JStr "Clear") (JNum 0); mkDay (JStr "Rain") (JNum 86400);
    mkDay (JStr "Fog") (JNum 172800) ].

Definition film : Film :=
  mkFilm (JStr "Sleepless in Seattle") "A widower and a reporter."
         JUndefined (JNum 2200) (JStr "/poster.jpg") (JNum 11) (JStr "1993-06-24").

(** The store after the weather of location 42 was fetched at time 0. *)
Definition with_weather : Store.t :=
  store (run host (GetWeather seattle (Resolved three_days)) empty 0).

(** The store after the movies of location 42 were fetched at time 0. *)
Definition with_movies : Store.t :=
  store (run host (GetMovies seattle (Resolved [film])) empty 0).

(** The store after Seattle was geocoded. *)
Definition with_seattle : Store.t :=
  store (run host (GetLocation (JStr "Seattle") (Resolved [place])) empty 0).

End Sample.

(** ** Further vocabulary *)

(** Two calls that look up the same rows. *)
Definition same_key (c1 c2 : Call) : Prop :=
  table_of c1 = table_of c2
  /\ key_column c1 = key_column c2
  /\ bound_key c1 = bound_key c2.

Definition is_insert (q : Query) : bool :=
  match Store.parse (sql q) with
  | Some (Store.InsertRow _ _ _) => true
  | _ => false
  end.

Definition is_delete (q : Query) : bool :=
  match Store.parse (sql q) with
  | Some (Store.DeleteRows _ _) => true
  | _ => false
  end.

(** The rows the store makes of summaries inserted one after the other,
    the first one getting the id [n]. *)
Fixpoint stored_rows (n : Z) (cols : list string) (ss : list obj) : list obj :=
  match ss with
  | [] => []
  | s :: ss' => Store.new_row n cols (JS.values s) :: stored_rows (n + 1) cols ss'
  end.

(** The columns a route inserts. *)
Definition cols_of (c : Call) : list string :=
  match c with
  | GetLocation _ _ => location_cols
  | GetWeather _ _ => weather_cols
  | GetEvents _ _ => events_cols
  | GetMovies _ _ => movies_cols
  | GetYelp _ _ => yelp_cols
  end.

(** The objects a handler builds from the upstream answer of a call
    handled at time [now]: one per record on the four routes keyed by
    location id, one for the first record on the location route. *)
Definition built_for (host : Host) (c : Call) (now : Z) : list obj :=
  match c with
  | GetLocation data (Resolved (place :: _)) => [Location data place]
  | GetLocation _ _ => []
  | GetWeather data (Resolved records) =>
      summaries_of (get data "id") (fun now day => built (Weather host day) now) now records
  | GetEvents data (Resolved records) =>
      summaries_of (get data "id") (fun now event => built (Event host event) now) now records
  | GetMovies data (Resolved records) =>
      summaries_of (get data "id") (fun now movie => built (Movie movie) now) now records
  | GetYelp data (Resolved records) =>
      summaries_of (get data "id") (fun now biz => built (Yelp biz) now) now records
  | _ => []
  end.

(** The one way a request ends without a response: a location request
    with an empty search string that upstream answers with a place. *)
Definition unanswered (c : Call) : bool :=
  match c with
  | GetLocation data (Resolved (_ :: _)) => negb (truthy data)
  | _ => false
  end.

(** The [sqlInfo] a handler builds for a call, and the address of the
    upstream request it makes on a miss. *)
Definition info_of (c : Call) : SqlInfo :=
  match c with
  | GetLocation data _ => location_info data
  | GetWeather data _ | GetEvents data _ | GetMovies data _ | GetYelp data _ =>
      keyed_by_id (table_of c) (get data "id")
  end.

Definition url_of (host : Host) (c : Call) : string :=
  match c with
  | GetLocation data _ => location_url host data
  | GetWeather data _ => weather_url host data
  | GetEvents data _ => events_url host data
  | GetMovies data _ => movies_url host data
  | GetYelp data _ => yelp_url data
  end.

(** The INSERT a handler sends for an object it built. *)
Definition insert_of (c : Call) (o : obj) : Query :=
  saveDataToDB_query (with_record (info_of c) o).

(** * Lemmas *)

Ltac flatten_trace := repeat progress (cbn [app]; rewrite <- ?app_assoc).

Section TraceFacts.

Lemma queries_app a b : queries (a ++ b) = queries a ++ queries b.
Proof. unfold queries. now rewrite flat_map_app. Qed.

Lemma fetches_app a b : fetches (a ++ b) = fetches a ++ fetches b.
Proof. unfold fetches. now rewrite flat_map_app. Qed.

Lemma responses_app a b : responses (a ++ b) = responses a ++ responses b.
Proof. unfold responses. now rewrite flat_map_app. Qed.

Lemma steps_app a b : steps (a ++ b) = steps a ++ steps b.
Proof. unfold steps. now rewrite flat_map_app. Qed.

Lemma extend_nil w : extend w [] = w.
Proof. destruct w; unfold extend; cbn. now rewrite app_nil_r. Qed.

Lemma extend_extend w a b : extend (extend w a) b = extend w (a ++ b).
Proof. unfold extend; cbn. now rewrite app_assoc. Qed.

Lemma emit_run e w : emit e w = (tt, extend w [e]).
Proof. reflexivity. Qed.

Lemma emits_run es w : emits es w = (tt, extend w es).
Proof.
  revert w. induction es as [| e es IH]; intros w.
  - cbn. now rewrite extend_nil.
  - cbn [emits]. unfold bind, emit. now rewrite IH, extend_extend.
Qed.

Lemma client_query_trace q w :
  trace (snd (client_query q w)) = trace w ++ [EQuery q].
Proof. unfold client_query. now destruct (Store.run _ _ _). Qed.

Lemma hd_error_queries tr q :
  hd_error tr = Some (EQuery q) -> hd_error (queries tr) = Some q.
Proof. destruct tr as [| e tr]; [discriminate |]. now intros [= ->]. Qed.

Lemma chatter_silent es :
  forallb chatter es = true ->
  steps es = [] /\ responses es = [] /\ fetches es = [] /\ queries es = []
  /\ existsb is_age_line es = false.
Proof.
  induction es as [| e es IH]; [easy |].
  cbn [forallb]. intros [He Hes]%andb_true_iff.
  destruct (IH Hes) as (Hs & Hr & Hf & Hq & Ha).
  unfold steps, responses, fetches, queries in *.
  cbn [flat_map existsb]. rewrite Hs, Hr, Hf, Hq, Ha.
  destruct e as [q | u | args | err | st b]; try discriminate.
  - cbn [phase]. cbn [chatter] in He. apply negb_true_iff in He. rewrite He.
    assert (Hage : is_age_line (ELog args) = false).
    { destruct args as [| [v1 | o1] [| [[| | | n | label] | o2] [| [v3 | o3] [| ? ?]]]];
        try reflexivity.
      cbn in He |- *. now apply orb_false_iff in He. }
    rewrite Hage. repeat split.
  - repeat split.
Qed.

Lemma in_order_inserts n : in_order (3 :: repeat 3 n ++ [4])%nat = true.
Proof.
  induction n as [| n IH]; [reflexivity |].
  cbn [repeat app]. cbn [repeat app] in IH.
  change (in_order (3 :: 3 :: repeat 3 n ++ [4])%nat)
    with (in_order (3 :: repeat 3 n ++ [4])%nat).
  exact IH.
Qed.

End TraceFacts.

(** ** The store *)

Lemma table_set_table ts name rs : Store.table (Store.set_table ts name rs) name = rs.
Proof.
  induction ts as [| [n rs'] ts IH]; cbn.
  - now rewrite String.eqb_refl.
  - destruct (String.eqb_spec n name) as [-> | Hne]; cbn.
    + now rewrite String.eqb_refl.
    + destruct (String.eqb_spec n name); [contradiction | exact IH].
Qed.

Lemma rows_of_insert st tb cols returning ps :
  Store.rows_of (fst (Store.insert st tb cols returning ps)) tb
  = Store.rows_of st tb ++ [Store.new_row (Store.next_id st) cols ps].
Proof. unfold Store.insert, Store.rows_of. cbn. apply table_set_table. Qed.

Lemma values_length (o : obj) : List.length (JS.values o) = List.length (keys o).
Proof. unfold JS.values, keys. now rewrite !length_map. Qed.

(** ** The freshness check *)

Section Freshness.

Lemma gt_not_a_number a : gt a JUndefined = false.
Proof. unfold gt. now destruct (to_number a). Qed.

Variables (sqlInfo : SqlInfo) (sqlData : Store.Result) (w : World).

Lemma checkTimeouts_no_rows :
  Store.rowCount sqlData <= 0 ->
  checkTimeouts sqlInfo sqlData w = (Returned None, w).
Proof.
  intros H. unfold checkTimeouts.
  destruct (Z.gtb_spec (Store.rowCount sqlData) 0); [lia | reflexivity].
Qed.

Lemma checkTimeouts_kept first rest :
  Store.rowCount sqlData > 0 ->
  Store.rows sqlData = first :: rest ->
  gt (sub (JNum (clock w)) (get first "created_at")) (timeouts (endpoint sqlInfo)) = false ->
  checkTimeouts sqlInfo sqlData w
  = (Returned (Some sqlData), extend w (age_lines sqlInfo w first)).
Proof.
  intros Hc Hr Hgt. unfold checkTimeouts.
  destruct (Z.gtb_spec (Store.rowCount sqlData) 0); [| lia].
  rewrite Hr. unfold bind, Date_now, emit, ret.
  rewrite extend_extend. cbn [clock extend app].
  now rewrite Hgt.
Qed.

Lemma checkTimeouts_evicted first rest :
  Store.rowCount sqlData > 0 ->
  Store.rows sqlData = first :: rest ->
  gt (sub (JNum (clock w)) (get first "created_at")) (timeouts (endpoint sqlInfo)) = true ->
  checkTimeouts sqlInfo sqlData w
  = (Returned None,
     snd (client_query (delete_query sqlInfo) (extend w (age_lines sqlInfo w first)))).
Proof.
  intros Hc Hr Hgt. unfold checkTimeouts.
  destruct (Z.gtb_spec (Store.rowCount sqlData) 0); [| lia].
  rewrite Hr. unfold bind, Date_now, emit, ret.
  rewrite extend_extend. cbn [clock extend app].
  rewrite Hgt.
  now destruct (client_query _ _).
Qed.

End Freshness.

(** ** A run of the shape *)

Section CacheAside.

Context {A : Type}.
Variables (tb : string) (key : jsval).
Variable on_hit : Store.Result -> Body.
Variables (before : list Effect) (url : string) (banner : list Effect).
Variable make : Z -> A -> obj.
Variable noisy : bool.
Variable cols : list string.

Hypothesis no_timeout : timeouts tb = JUndefined.

Hypothesis select_parses :
  Store.parse (sql (getDataFromDB_query (keyed_by_id tb key)))
  = Some (Store.SelectAll tb "location_id").

Hypothesis make_keys :
  forall now x, keys (set (make now x) "location_id" key) = cols.

Hypothesis insert_parses :
  forall s, keys s = cols ->
    Store.parse (sql (saveDataToDB_query (with_record (keyed_by_id tb key) s)))
    = Some (Store.InsertRow tb cols false).

Lemma lookup_run w :
  getDataFromDB (keyed_by_id tb key) w
  = (Store.select (store w) tb "location_id" [key], extend w [lookup_effect tb key]).
Proof.
  unfold getDataFromDB, client_query, Store.run.
  rewrite select_parses. reflexivity.
Qed.

Lemma summarize_run x w :
  summarize tb key make noisy x w
  = (set (make (clock w) x) "location_id" key,
     {| store := fst (Store.insert (store w) tb cols false
                        (JS.values (set (make (clock w) x) "location_id" key)));
        clock := clock w;
        trace := trace w ++ save_effects tb key noisy (set (make (clock w) x) "location_id" key) |}).
Proof.
  unfold summarize, bind, Date_now, ret, saveDataToDB, client_query, save_effects.
  destruct noisy; unfold emit, Store.run; cbn [store clock trace extend];
    rewrite (insert_parses _ (make_keys (clock w) x)); cbn [fst snd];
    rewrite <- ?app_assoc; reflexivity.
Qed.

Lemma mapM_summarize records w :
  mapM (summarize tb key make noisy) records w
  = (summaries_of key make (clock w) records,
     {| store := insert_all tb cols (store w) (summaries_of key make (clock w) records);
        clock := clock w;
        trace := trace w ++ flat_map (save_effects tb key noisy) (summaries_of key make (clock w) records) |}).
Proof.
  revert w. induction records as [| x xs IH]; intros w.
  - cbn. rewrite app_nil_r. unfold ret. now destruct w.
  - cbn [mapM]. unfold bind at 1. rewrite summarize_run.
    unfold bind at 1. rewrite IH. unfold ret. cbn [store clock trace].
    cbn [summaries_of map flat_map insert_all fold_left].
    now rewrite <- app_assoc.
Qed.

Lemma cache_aside_run answer w :
  exec (cache_aside tb key on_hit before url banner make noisy answer) w
  = outcome tb key on_hit before url banner make noisy cols w answer.
Proof.
  unfold exec, cache_aside, outcome. unfold bind at 1. rewrite lookup_run.
  unfold bind at 1.
  set (d := Store.select (store w) tb "location_id" [key]).
  destruct (Store.rows d) as [| first rest] eqn:Hrows.
  - rewrite checkTimeouts_no_rows
      by (unfold d, Store.select in *; cbn in *; rewrite Hrows; cbn; lia).
    unfold bind at 1. rewrite emits_run. unfold bind at 1, emit.
    rewrite !extend_extend.
    destruct answer as [err | [| x xs]].
    + unfold handleError, bind, emit. cbn [snd]. rewrite !extend_extend.
      reflexivity.
    + unfold bind at 1. rewrite emits_run.
      unfold handleError, bind, emit. cbn [snd]. rewrite !extend_extend.
      flatten_trace. reflexivity.
    + unfold bind at 1. rewrite emits_run.
      unfold bind at 1. rewrite mapM_summarize.
      unfold emit, extend. cbn [snd store clock trace].
      flatten_trace. reflexivity.
  - rewrite (checkTimeouts_kept _ d _ first rest).
    + unfold emit. cbn [snd]. rewrite !extend_extend. reflexivity.
    + unfold d, Store.select in *. cbn in *. rewrite Hrows. cbn. lia.
    + exact Hrows.
    + cbn [endpoint keyed_by_id]. rewrite no_timeout. apply gt_not_a_number.
Qed.

End CacheAside.

(** ** The handlers are instances of the shape *)

Lemma getWeather_shape host data answer :
  getWeather host data answer
  = cache_aside "weathers" (get data "id") all_rows
      [] (weather_url host data) [ELog [LVal (JStr "Weather from API")]]
      (fun now day => built (Weather host day) now) false answer.
Proof. reflexivity. Qed.

Lemma getEvents_shape host data answer :
  getEvents host data answer
  = cache_aside "events" (get data "id") all_rows
      [] (events_url host data) [ELog [LVal (JStr "Event from API")]]
      (fun now event => built (Event host event) now) false answer.
Proof. reflexivity. Qed.

Lemma getMovies_shape host data answer :
  getMovies host data answer
  = cache_aside "movies" (get data "id") no_rows
      [ELog [LVal (JStr "=================")]; ELog [LObject data]]
      (movies_url host data) [ELog [LVal (JStr "Movie in API")]]
      (fun now movie => built (Movie movie) now) false answer.
Proof. reflexivity. Qed.

Lemma getYelp_shape host data answer :
  getYelp host data answer
  = cache_aside "yelps" (get data "id") all_rows
      [] (yelp_url data) []
      (fun now biz => built (Yelp biz) now) true answer.
Proof. reflexivity. Qed.

(** The INSERT text depends on the record only through its keys. *)
Ltac insert_text :=
  let s := fresh "s" in
  let Hs := fresh "Hs" in
  intros s Hs;
  unfold saveDataToDB_query, with_record;
  cbn [searchQuery endpoint columns values keyed_by_id truthy];
  rewrite values_length, Hs; reflexivity.

Ltac route_facts := try reflexivity; try insert_text.

Lemma getWeather_run host data answer w :
  exec (getWeather host data answer) w
  = outcome "weathers" (get data "id") all_rows
      [] (weather_url host data) [ELog [LVal (JStr "Weather from API")]]
      (fun now day => built (Weather host day) now) false weather_cols w answer.
Proof.
  rewrite getWeather_shape. apply cache_aside_run; try reflexivity. insert_text.
Qed.

Lemma getEvents_run host data answer w :
  exec (getEvents host data answer) w
  = outcome "events" (get data "id") all_rows
      [] (events_url host data) [ELog [LVal (JStr "Event from API")]]
      (fun now event => built (Event host event) now) false events_cols w answer.
Proof.
  rewrite getEvents_shape. apply cache_aside_run; try reflexivity. insert_text.
Qed.

Lemma getMovies_run host data answer w :
  exec (getMovies host data answer) w
  = outcome "movies" (get data "id") no_rows
      [ELog [LVal (JStr "=================")]; ELog [LObject data]]
      (movies_url host data) [ELog [LVal (JStr "Movie in API")]]
      (fun now movie => built (Movie movie) now) false movies_cols w answer.
Proof.
  rewrite getMovies_shape. apply cache_aside_run; try reflexivity. insert_text.
Qed.

Lemma getYelp_run host data answer w :
  exec (getYelp host data answer) w
  = outcome "yelps" (get data "id") all_rows
      [] (yelp_url data) []
      (fun now biz => built (Yelp biz) now) true yelp_cols w answer.
Proof.
  rewrite getYelp_shape. apply cache_aside_run; try reflexivity. insert_text.
Qed.

Lemma location_lookup_run data w :
  getDataFromDB (location_info data) w
  = (Store.select (store w) "locations" (location_column data) [location_key data],
     extend w [EQuery (getDataFromDB_query (location_info data))]).
Proof.
  unfold getDataFromDB, client_query, Store.run, getDataFromDB_query,
    location_column, location_key.
  cbn [searchQuery id endpoint location_info sql params].
  destruct (truthy data); reflexivity.
Qed.

Lemma location_save_run data place w :
  saveDataToDB (with_record (location_info data) (Location data place)) w
  = (snd (Store.insert (store w) "locations" location_cols (truthy data)
            (JS.values (Location data place))),
     {| store := fst (Store.insert (store w) "locations" location_cols (truthy data)
                        (JS.values (Location data place)));
        clock := clock w;
        trace := trace w
          ++ [EQuery (saveDataToDB_query (with_record (location_info data)
                                                      (Location data place)))] |}).
Proof.
  unfold saveDataToDB, client_query, Store.run, saveDataToDB_query, with_record.
  cbn [searchQuery id endpoint columns values location_info sql params].
  destruct (truthy data); reflexivity.
Qed.

Lemma searchToLatLong_run host data answer w :
  exec (searchToLatLong host data answer) w = location_outcome host data answer w.
Proof.
  unfold exec, searchToLatLong, location_outcome.
  fold (location_info data). fold (location_url host data).
  unfold bind at 1. rewrite location_lookup_run.
  set (d := Store.select (store w) "locations" (location_column data) [location_key data]).
  assert (Hcount : Store.rowCount d = Z.of_nat (List.length (Store.rows d)))
    by reflexivity.
  rewrite Hcount.
  destruct (Store.rows d) as [| first rest] eqn:Hrows.
  - cbn [List.length Z.of_nat Z.gtb Z.compare].
    unfold bind at 1, emit. rewrite !extend_extend.
    destruct answer as [err | [| place places]].
    + unfold handleError, bind, emit. cbn [snd]. rewrite !extend_extend. reflexivity.
    + unfold handleError, bind, emit. cbn [snd]. rewrite !extend_extend. reflexivity.
    + cbn [searchQuery location_info]. fold (location_info data).
      unfold bind at 1.
      change (saveDataToDB (with_record (location_info data) (Location data place))
                (extend w ([EQuery (getDataFromDB_query (location_info data))]
                             ++ [EFetch (location_url host data)])))
        with (saveDataToDB (with_record (location_info data) (Location data place))
                (extend w [EQuery (getDataFromDB_query (location_info data));
                           EFetch (location_url host data)])).
      rewrite location_save_run.
      unfold Store.insert. cbn [fst snd Store.rows store clock trace extend].
      destruct (truthy data).
      * unfold emit, extend. cbn [snd store clock trace].
        flatten_trace. reflexivity.
      * unfold ret. cbn [snd]. flatten_trace. reflexivity.
  - replace (Z.of_nat (List.length (first :: rest)) >? 0) with true
      by (symmetry; apply Z.gtb_lt; cbn [List.length]; lia).
    unfold emit. cbn [snd]. rewrite extend_extend. reflexivity.
Qed.

Lemma serve_run host c w : exec (serve host c) w = served host c w.
Proof.
  destruct c; cbn [serve served].
  - apply searchToLatLong_run.
  - apply getWeather_run.
  - apply getEvents_run.
  - apply getMovies_run.
  - apply getYelp_run.
Qed.

(** ** What every run of the shape has *)

Section OutcomeFacts.

Context {A : Type}.
Variables (tb : string) (key : jsval).
Variable on_hit : Store.Result -> Body.
Variables (before : list Effect) (url : string) (banner : list Effect).
Variable make : Z -> A -> obj.
Variable noisy : bool.
Variable cols : list string.

Hypothesis before_chatter : forallb chatter before = true.

Hypothesis banner_chatter : forallb chatter banner = true.

Hypothesis select_parses :
  Store.parse (sql (getDataFromDB_query (keyed_by_id tb key)))
  = Some (Store.SelectAll tb "location_id").

Hypothesis make_keys :
  forall now x, keys (set (make now x) "location_id" key) = cols.

Hypothesis insert_parses :
  forall s, keys s = cols ->
    Store.parse (sql (saveDataToDB_query (with_record (keyed_by_id tb key) s)))
    = Some (Store.InsertRow tb cols false).

Lemma outcome_store_without_data w err :
  store (outcome tb key on_hit before url banner make noisy cols w (Resolved [])) = store w /\ store (outcome tb key on_hit before url banner make noisy cols w (Rejected err)) = store w.
Proof.
  unfold outcome. destruct (Store.rows _); split; reflexivity.
Qed.

Lemma age_lines_silent sqlInfo w first :
  responses (age_lines sqlInfo w first) = []
  /\ fetches (age_lines sqlInfo w first) = []
  /\ queries (age_lines sqlInfo w first) = []
  /\ steps (age_lines sqlInfo w first) = [1; 1]%nat
  /\ existsb is_age_line (age_lines sqlInfo w first) = true.
Proof. repeat split. Qed.

Lemma outcome_responses_without_data w err :
  responses (trace (outcome tb key on_hit before url banner make noisy cols w (Resolved []))) = responses (trace w) ++ [settled tb key on_hit w]
  /\ responses (trace (outcome tb key on_hit before url banner make noisy cols w (Rejected err))) = responses (trace w) ++ [settled tb key on_hit w].
Proof.
  destruct (chatter_silent _ before_chatter) as (_ & Hb & _).
  destruct (chatter_silent _ banner_chatter) as (_ & Hn & _).
  unfold outcome, settled.
  destruct (Store.rows _) as [| first rest]; cbn [extend trace];
    split; rewrite ?responses_app; cbn [responses flat_map app];
    fold (responses before) (responses banner);
    rewrite ?responses_app, ?Hb, ?Hn; reflexivity.
Qed.

(** Rows the inserts of one run add. *)
Variable P : Z -> obj -> Prop.

Hypothesis row_ok :
  forall n now x,
    P now (Store.new_row n cols (JS.values (set (make now x) "location_id" key))).



(** The effects of the inserts: each is one step 3 and nothing else. *)
Lemma save_effects_digest now records :
  let es := flat_map (save_effects tb key noisy) (summaries_of key make now records) in
  steps es = repeat 3%nat (List.length records)
  /\ responses es = [] /\ fetches es = [] /\ existsb is_age_line es = false.
Proof.
  induction records as [| x xs (Hs & Hr & Hf & Ha)]; [repeat split |].
  cbn [summaries_of map flat_map List.length repeat].
  fold (summaries_of key make now xs).
  rewrite steps_app, responses_app, fetches_app, existsb_app, Hs, Hr, Hf, Ha.
  assert (Hparse := insert_parses _ (make_keys now x)).
  unfold save_effects.
  destruct noisy; cbn [app steps responses fetches flat_map existsb phase
                         is_check_line is_age_line];
    rewrite Hparse; repeat split.
Qed.

(** Lookup first, then the check on a hit, then at most one upstream
    request, then the inserts, then the response. *)
Lemma outcome_order st now answer :
  let tr := trace (outcome tb key on_hit before url banner make noisy cols (fresh st now) answer) in
  hd_error tr = Some (lookup_effect tb key)
  /\ in_order (steps tr) = true
  /\ evaluated tr = hit tb key (fresh st now)
  /\ (List.length (fetches tr) <= 1)%nat
  /\ (hit tb key (fresh st now) = true -> fetches tr = []).
Proof.
  destruct (chatter_silent _ before_chatter) as (Hbs & _ & Hbf & _ & Hba).
  destruct (chatter_silent _ banner_chatter) as (Hns & _ & Hnf & _ & Hna).
  assert (Hlookup : phase (lookup_effect tb key) = Some 0%nat).
  { unfold lookup_effect. cbn [phase]. now rewrite select_parses. }
  unfold outcome, hit, evaluated. cbn [fresh store clock].
  destruct (Store.rows _) as [| first rest].
  - assert (Hasked : forall rest,
              steps (lookup_effect tb key :: before ++ EFetch url :: rest)
              = (0 :: 2 :: steps rest)%nat
              /\ fetches (lookup_effect tb key :: before ++ EFetch url :: rest)
                 = url :: fetches rest
              /\ existsb is_age_line
                   (lookup_effect tb key :: before ++ EFetch url :: rest)
                 = existsb is_age_line rest).
    { intros rest.
      change (lookup_effect tb key :: before ++ EFetch url :: rest)
        with ([lookup_effect tb key] ++ before ++ [EFetch url] ++ rest).
      rewrite !steps_app, !fetches_app, !existsb_app, Hbs, Hbf, Hba.
      unfold steps at 1. cbn [flat_map]. rewrite Hlookup. repeat split. }
    destruct answer as [err | [| x xs]]; cbn [extend fresh trace app];
      rewrite <- ?app_assoc; cbn [app].
    + destruct (Hasked [EError err; apology]) as (-> & -> & ->).
      repeat split; solve [reflexivity | cbn; lia | congruence].
    + destruct (Hasked (banner ++ [EError (JStr "NO DATA"); apology])) as (-> & -> & ->).
      rewrite steps_app, fetches_app, existsb_app, Hns, Hnf, Hna.
      repeat split; solve [reflexivity | cbn; lia | congruence].
    + destruct (save_effects_digest now (x :: xs)) as (Hs & _ & Hf & Ha).
      cbn zeta in Hs, Hf, Ha.
      destruct (Hasked (banner ++ flat_map (save_effects tb key noisy)
                          (summaries_of key make now (x :: xs))
                          ++ [ESend 200 (BArray (summaries_of key make now (x :: xs)))]))
        as (-> & -> & ->).
      rewrite !steps_app, !fetches_app, !existsb_app, Hns, Hnf, Hna, Hs, Hf, Ha.
      cbn [app List.length repeat].
      change (steps [ESend 200 (BArray (summaries_of key make now (x :: xs)))])
        with [4%nat].
      repeat split; try solve [reflexivity | cbn; lia | congruence].
      change (in_order (0 :: 2 :: 3 :: repeat 3 (List.length xs) ++ [4])%nat)
        with (in_order (3 :: repeat 3 (List.length xs) ++ [4])%nat).
      apply in_order_inserts.
  - cbn [extend fresh trace app].
    change (lookup_effect tb key
              :: age_lines (keyed_by_id tb key) (fresh st now) first
                   ++ [ESend 200 (on_hit (Store.select st tb "location_id" [key]))])
      with ([lookup_effect tb key]
              ++ age_lines (keyed_by_id tb key) (fresh st now) first
              ++ [ESend 200 (on_hit (Store.select st tb "location_id" [key]))]).
    rewrite !steps_app, !fetches_app, !existsb_app.
    unfold steps at 1. cbn [flat_map]. rewrite Hlookup.
    repeat split; solve [reflexivity | cbn; lia | congruence].
Qed.

(** What is sent after a miss that upstream answers with records. *)
Hypothesis make_no_id :
  forall now x, get (set (make now x) "location_id" key) "id" = JUndefined.



End OutcomeFacts.

(** ** Every route *)


Lemma served_starts_with_lookup host c st now :
  hd_error (trace (run host c st now)) = Some (EQuery (lookup_of c)).
Proof.
  unfold run. rewrite serve_run.
  destruct c as [data a | data a | data a | data a | data a]; cbn [served].
  1: { unfold location_outcome, lookup_of, getDataFromDB_query, location_info.
       cbn [searchQuery id endpoint table_of key_column bound_key fresh store].
       unfold location_column, location_key.
       destruct (Store.rows _) as [| first rest];
         [destruct a as [err | [| x xs]] |]; destruct (truthy data); reflexivity. }
  all: match goal with
       | |- context [outcome ?tb ?key ?on_hit ?before ?url ?banner ?make ?noisy ?cols _ ?a] =>
           destruct (outcome_order tb key on_hit before url banner make noisy cols
                       eq_refl eq_refl eq_refl) with (st := st) (now := now) (answer := a)
             as [Hhd _]; route_facts
       end;
    exact Hhd.
Qed.


(** No route ever judges a hit stale: whatever the age of the rows the
    store holds for the key, the store is left as it is, upstream is
    not asked, and the caller is sent the body of a hit. *)
Lemma a_hit_is_always_served (host : Host) (c : Call) (st : Store.t) (now : Z) :
  stored_for c st <> [] ->
  store (run host c st now) = st
  /\ fetches (trace (run host c st now)) = []
  /\ responses (trace (run host c st now)) = [(200, hit_body c st)].
Proof.
  unfold run. rewrite serve_run. unfold stored_for, hit_body, stored_for.
  destruct c as [data a | data a | data a | data a | data a];
    cbn [served table_of key_column bound_key]; intros Hhit;
    unfold location_outcome, outcome, all_rows, no_rows; cbn [fresh store];
    destruct (Store.rows _) as [| first rest]; try contradiction;
    repeat split; reflexivity.
Qed.

(** * The claims *)

(** C1. Weather rows for location 42 written at time 0 are looked up at
    time 16000, when their age is beyond the 15 seconds the [weather]
    entry of [timeouts] gives.  The handler looks [timeouts] up under
    its endpoint name [weathers], finds no entry, deletes nothing, asks
    upstream nothing and sends the three old rows. *)
Theorem stale_weather_rows_are_served :
  let c := GetWeather Sample.seattle (Resolved Sample.three_days) in
  let w' := run Sample.host c Sample.with_weather 16000 in
  List.length (stored_for c Sample.with_weather) = 3%nat
  /\ Forall (fun r => get r "created_at" = JNum 0) (stored_for c Sample.with_weather)
  /\ gt (JNum (16000 - 0)) (timeouts "weather") = true
  /\ timeouts "weathers" = JUndefined
  /\ store w' = Sample.with_weather
  /\ queries (trace w')
     = [ {| sql := "SELECT * FROM weathers WHERE location_id=$1;";
            params := [JStr "42"] |} ]
  /\ fetches (trace w') = []
  /\ responses (trace w') = [(200, BArray (stored_for c Sample.with_weather))].
Proof. vm_compute. repeat split; repeat constructor. Qed.

(** C2. Movie rows for location 42 written at time 0 are looked up one
    second later.  [checkTimeouts] returns them, and the handler sends
    [result.row], which is undefined: the caller gets an empty body
    instead of the cached row. *)
Theorem fresh_movie_rows_are_not_sent :
  let c := GetMovies Sample.seattle (Resolved [Sample.film]) in
  let w' := run Sample.host c Sample.with_movies 1000 in
  List.length (stored_for c Sample.with_movies) = 1%nat
  /\ fst (checkTimeouts (keyed_by_id "movies" (JStr "42"))
            (Store.select Sample.with_movies "movies" "location_id" [JStr "42"])
            (fresh Sample.with_movies 1000))
     = Returned (Some (Store.select Sample.with_movies "movies" "location_id" [JStr "42"]))
  /\ store w' = Sample.with_movies
  /\ fetches (trace w') = []
  /\ responses (trace w') = [(200, BUndefined)].
Proof. vm_compute. repeat split. Qed.

(** C3. [checkTimeouts] compares the age of the first row, the clock
    minus its [created_at], with the timeout of the endpoint: up to and
    including the timeout the data is returned and nothing is deleted;
    beyond it the function returns nothing and sends the DELETE.  An
    age equal to the timeout is on the fresh side. *)
Theorem checkTimeouts_boundary_inclusive
  (sqlInfo : SqlInfo) (sqlData : Store.Result) (w : World)
  (first : obj) (rest : list obj) (ttl created : Z) :
  timeouts (endpoint sqlInfo) = JNum ttl ->
  Store.rowCount sqlData > 0 ->
  Store.rows sqlData = first :: rest ->
  to_number (get first "created_at") = Some created ->
  let age := clock w - created in
  let verdict := fst (checkTimeouts sqlInfo sqlData w) in
  let w' := snd (checkTimeouts sqlInfo sqlData w) in
  (age <= ttl ->
     verdict = Returned (Some sqlData) /\ store w' = store w
     /\ queries (trace w') = queries (trace w))
  /\ (age > ttl ->
     verdict = Returned None
     /\ queries (trace w') = queries (trace w) ++ [delete_query sqlInfo])
  /\ (age = ttl -> verdict = Returned (Some sqlData)).
Proof.
  intros Httl Hc Hr Hcreated age verdict w'.
  assert (Hgt : gt (sub (JNum (clock w)) (get first "created_at"))
                   (timeouts (endpoint sqlInfo)) = (age >? ttl)).
  { unfold gt, sub. rewrite Httl, Hcreated. reflexivity. }
  assert (Hfresh : age <= ttl ->
     verdict = Returned (Some sqlData) /\ store w' = store w
     /\ queries (trace w') = queries (trace w)).
  { intros Hle. subst verdict w'.
    rewrite (checkTimeouts_kept sqlInfo sqlData w first rest Hc Hr).
    - cbn [fst snd extend store trace]. rewrite queries_app.
      cbn. now rewrite app_nil_r.
    - rewrite Hgt. destruct (Z.gtb_spec age ttl); [lia | reflexivity]. }
  split; [exact Hfresh | split].
  - intros Hlt. subst verdict w'.
    rewrite (checkTimeouts_evicted sqlInfo sqlData w first rest Hc Hr).
    + cbn [fst snd]. rewrite client_query_trace. cbn [extend trace].
      rewrite !queries_app. cbn. now rewrite app_nil_r.
    + rewrite Hgt. destruct (Z.gtb_spec age ttl); [reflexivity | lia].
  - intros Heq. apply Hfresh. lia.
Qed.

Lemma checkTimeouts_boundary_inclusive_witness :
  let data := {| Store.rowCount := 1; Store.rows := [[("created_at", JNum 1000)]] |} in
  timeouts "weather" = JNum 15000
  /\ 16000 - 1000 = 15000
  /\ fst (checkTimeouts (keyed_by_id "weather" (JStr "42")) data (fresh Sample.empty 16000))
     = Returned (Some data).
Proof.
  cbn zeta. split; [reflexivity | split; [reflexivity |]].
  exact (proj2 (proj2
    (checkTimeouts_boundary_inclusive (keyed_by_id "weather" (JStr "42"))
       {| Store.rowCount := 1; Store.rows := [[("created_at", JNum 1000)]] |}
       (fresh Sample.empty 16000) [("created_at", JNum 1000)] [] 15000 1000
       eq_refl eq_refl eq_refl eq_refl)) eq_refl).
Defined.

(** C4, as stated, fails: for a weather request on an empty store, an
    upstream answer without records and an upstream failure give the
    caller the same response. *)
Lemma no_data_looks_like_upstream_failure :
  ~ distinguishable
      (trace (run Sample.host (GetWeather Sample.seattle (Resolved []))
                  Sample.empty 0))
      (trace (run Sample.host (GetWeather Sample.seattle (Rejected (JStr "ETIMEDOUT")))
                  Sample.empty 0)).
Proof. intros Hdiff. apply Hdiff. reflexivity. Qed.

(** C4, amended. On every route, when upstream has no records the store
    is left as it was, and the caller is sent exactly what it is sent
    when upstream fails: on a miss the status 500 with the fixed text,
    on a hit the cached data. *)
Theorem no_data_writes_nothing (host : Host) (c : Call) (err : jsval)
        (st : Store.t) (now : Z) :
  store (run host (no_data c) st now) = st
  /\ responses (trace (run host (no_data c) st now)) = [without_data c st]
  /\ responses (trace (run host (rejected err c) st now)) = [without_data c st].
Proof.
  unfold run. rewrite !serve_run.
  destruct c as [data a | data a | data a | data a | data a];
    cbn [no_data rejected served].
  1: { unfold location_outcome, without_data, stored_for, hit_body, stored_for.
       cbn [table_of key_column bound_key fresh store].
       destruct (Store.rows _) as [| first rest]; repeat split. }
  all: match goal with
       | |- context [outcome ?tb ?key ?on_hit ?before ?url ?banner ?make ?noisy ?cols _ _] =>
           destruct (outcome_store_without_data tb key on_hit before url banner
                       make noisy cols (fresh st now) err) as [Hstore _];
           destruct (outcome_responses_without_data tb key on_hit before url banner
                       make noisy cols eq_refl eq_refl (fresh st now) err)
             as [Hnone Hfail]
       end;
    rewrite Hstore, Hnone, Hfail; repeat split.
Qed.

(** C5, as stated, fails: a location request whose search string is
    empty is looked up by [location_id], with no value to bind. *)
Lemma empty_search_is_looked_up_by_location_id :
  let c := GetLocation (JStr "") (Resolved [Sample.place]) in
  hd_error (queries (trace (run Sample.host c Sample.empty 0)))
  = Some {| sql := "SELECT * FROM locations WHERE location_id=$1;";
            params := [JUndefined] |}
  /\ hd_error (queries (trace (run Sample.host c Sample.empty 0)))
     <> Some (claimed_lookup c).
Proof. split; [reflexivity | discriminate]. Qed.

(** C5, amended. The first statement a handler sends is one SELECT with
    a single equality on one key column and the key as its bound value
    [$1]; the text is made of the table and column names only.  The
    column is [search_query] when the request carries a non-empty search
    string, and [location_id] otherwise.  The store answers it with the
    rows of the table whose column equals the bound value. *)
Theorem lookup_is_one_bound_equality (host : Host) (c : Call)
        (st : Store.t) (now : Z) :
  hd_error (queries (trace (run host c st now))) = Some (lookup_of c)
  /\ Store.run st (sql (lookup_of c)) (params (lookup_of c))
     = (st, Store.select st (table_of c) (key_column c) [bound_key c])
  /\ (forall r,
        In r (stored_for c st)
        <-> In r (Store.rows_of st (table_of c))
            /\ Store.sql_eq (get r (key_column c)) (bound_key c) = true)
  /\ match c with
     | GetLocation data _ =>
         if truthy data
         then key_column c = "search_query" /\ bound_key c = data
         else key_column c = "location_id" /\ bound_key c = JUndefined
     | GetWeather data _ | GetEvents data _ | GetMovies data _ | GetYelp data _ =>
         key_column c = "location_id" /\ bound_key c = get data "id"
     end.
Proof.
  split; [| split; [| split]].
  - apply hd_error_queries, served_starts_with_lookup.
  - unfold lookup_of, Store.run.
    destruct c as [data a | data a | data a | data a | data a];
      cbn [table_of key_column bound_key sql params]; try reflexivity.
    unfold location_column. destruct (truthy data); reflexivity.
  - intros r. unfold stored_for, Store.select. cbn [Store.rows].
    rewrite filter_In. reflexivity.
  - destruct c as [data a | data a | data a | data a | data a];
      cbn [key_column bound_key]; try (split; reflexivity).
    unfold location_column, location_key. destruct (truthy data); split; reflexivity.
Qed.









(** C9. For an endpoint name without an entry in [timeouts],
    [checkTimeouts] sends no statement and leaves the store alone
    whatever the data, and whenever there is at least one row it
    returns the data it was given, whatever the age of the row. *)
Theorem checkTimeouts_without_entry
  (sqlInfo : SqlInfo) (sqlData : Store.Result) (w : World) :
  timeouts (endpoint sqlInfo) = JUndefined ->
  let verdict := fst (checkTimeouts sqlInfo sqlData w) in
  let w' := snd (checkTimeouts sqlInfo sqlData w) in
  store w' = store w
  /\ queries (trace w') = queries (trace w)
  /\ (forall first rest,
        Store.rowCount sqlData > 0 ->
        Store.rows sqlData = first :: rest ->
        verdict = Returned (Some sqlData)).
Proof.
  intros Hno verdict w'.
  assert (Hkept : forall first rest,
            Store.rowCount sqlData > 0 ->
            Store.rows sqlData = first :: rest ->
            checkTimeouts sqlInfo sqlData w
            = (Returned (Some sqlData), extend w (age_lines sqlInfo w first))).
  { intros first rest Hc Hr.
    apply (checkTimeouts_kept sqlInfo sqlData w first rest Hc Hr).
    rewrite Hno. apply gt_not_a_number. }
  subst verdict w'.
  destruct (Z_le_gt_dec (Store.rowCount sqlData) 0) as [Hle | Hpos].
  - rewrite checkTimeouts_no_rows by assumption.
    split; [reflexivity | split; [reflexivity | intros; lia]].
  - destruct (Store.rows sqlData) as [| first rest] eqn:Hr.
    + unfold checkTimeouts.
      destruct (Z.gtb_spec (Store.rowCount sqlData) 0); [| lia].
      rewrite Hr.
      split; [reflexivity | split; [reflexivity | intros; discriminate]].
    + rewrite (Hkept first rest Hpos eq_refl).
      cbn [fst snd extend store trace]. rewrite queries_app.
      cbn. rewrite app_nil_r.
      split; [reflexivity | split; [reflexivity | reflexivity]].
Qed.

Lemma checkTimeouts_without_entry_witness :
  let data := {| Store.rowCount := 1; Store.rows := [[("created_at", JNum 0)]] |} in
  timeouts "weathers" = JUndefined
  /\ fst (checkTimeouts (keyed_by_id "weathers" (JStr "42")) data (fresh Sample.empty 16000))
     = Returned (Some data).
Proof.
  cbn zeta. split; [reflexivity |].
  exact (proj2 (proj2
    (checkTimeouts_without_entry (keyed_by_id "weathers" (JStr "42"))
       {| Store.rowCount := 1; Store.rows := [[("created_at", JNum 0)]] |}
       (fresh Sample.empty 16000) eq_refl))
    [("created_at", JNum 0)] [] eq_refl eq_refl).
Defined.

(** C10. When the store holds rows for the search string, the location
    handler sends the first of them, a single object and not the list,
    and does nothing else: no freshness check, no upstream request, no
    write. *)
Theorem location_hit_sends_first_row (host : Host) (data : jsval)
        (answer : Answer Place) (st : Store.t) (now : Z)
        (first : obj) (rest : list obj) :
  stored_for (GetLocation data answer) st = first :: rest ->
  run host (GetLocation data answer) st now
  = {| store := st; clock := now;
       trace := [ EQuery (lookup_of (GetLocation data answer));
                  ESend 200 (BObject first) ] |}
  /\ evaluated (trace (run host (GetLocation data answer) st now)) = false.
Proof.
  intros Hhit. unfold run. rewrite serve_run. cbn [served].
  unfold stored_for in Hhit. cbn [table_of key_column bound_key] in Hhit.
  unfold location_outcome. cbn [fresh store]. rewrite Hhit.
  unfold lookup_of, getDataFromDB_query, location_info, extend, evaluated.
  cbn [searchQuery id endpoint table_of key_column bound_key fresh store clock
       trace app existsb is_age_line orb].
  unfold location_column, location_key.
  destruct (truthy data); split; reflexivity.
Qed.

Lemma location_hit_sends_first_row_witness :
  stored_for (GetLocation (JStr "Seattle") (Resolved [])) Sample.with_seattle <> []
  /\ responses (trace (run Sample.host (GetLocation (JStr "Seattle") (Resolved []))
                           Sample.with_seattle 86400000))
     = [(200, BObject [ ("id", JNum 1); ("search_query", JStr "Seattle");
                        ("formatted_query", JStr "Seattle, WA, USA");
                        ("latitude", JStr "47.6062"); ("longitude", JStr "-122.3321");
                        ("location_id", JNull); ("created_at", JNull) ])].
Proof.
  assert (Hhit : stored_for (GetLocation (JStr "Seattle") (Resolved [])) Sample.with_seattle
                 = [ [ ("id", JNum 1); ("search_query", JStr "Seattle");
                       ("formatted_query", JStr "Seattle, WA, USA");
                       ("latitude", JStr "47.6062"); ("longitude", JStr "-122.3321");
                       ("location_id", JNull); ("created_at", JNull) ] ])
    by (vm_compute; reflexivity).
  split; [rewrite Hhit; discriminate |].
  rewrite (proj1 (location_hit_sends_first_row Sample.host (JStr "Seattle")
                    (Resolved []) Sample.with_seattle 86400000 _ [] Hhit)).
  reflexivity.
Defined.

(** * Further properties of the code *)

(** ** More on the store *)

Lemma table_set_table_other ts name other rs :
  other <> name ->
  Store.table (Store.set_table ts name rs) other = Store.table ts other.
Proof.
  intros Hne. induction ts as [| [n rs'] ts IH]; cbn.
  - destruct (String.eqb_spec name other); [congruence | reflexivity].
  - destruct (String.eqb_spec n name) as [-> | Hn]; cbn.
    + destruct (String.eqb_spec name other); [congruence | reflexivity].
    + destruct (String.eqb_spec n other); [reflexivity | exact IH].
Qed.

Lemma rows_of_insert_other st tb cols returning ps other :
  other <> tb ->
  Store.rows_of (fst (Store.insert st tb cols returning ps)) other
  = Store.rows_of st other.
Proof. intros Hne. unfold Store.insert, Store.rows_of. cbn. now apply table_set_table_other. Qed.

(** ** The freshness check at its edges *)

(** X3. A first row that has no [created_at] at all is never judged
    stale, whatever the endpoint and its timeout: the age is not a
    number, the data is returned and nothing is deleted. *)
Theorem checkTimeouts_keeps_unreadable_age
  (sqlInfo : SqlInfo) (sqlData : Store.Result) (w : World)
  (first : obj) (rest : list obj) :
  Store.rowCount sqlData > 0 ->
  Store.rows sqlData = first :: rest ->
  get first "created_at" = JUndefined ->
  fst (checkTimeouts sqlInfo sqlData w) = Returned (Some sqlData)
  /\ store (snd (checkTimeouts sqlInfo sqlData w)) = store w
  /\ queries (trace (snd (checkTimeouts sqlInfo sqlData w))) = queries (trace w).
Proof.
  intros Hc Hr Hmissing.
  rewrite (checkTimeouts_kept sqlInfo sqlData w first rest Hc Hr).
  - cbn [fst snd extend store trace]. rewrite queries_app. cbn.
    rewrite app_nil_r. repeat split.
  - rewrite Hmissing. reflexivity.
Qed.

Lemma checkTimeouts_keeps_unreadable_age_witness :
  let data := {| Store.rowCount := 1; Store.rows := [[("name", JStr "Concert")]] |} in
  get [("name", JStr "Concert")] "created_at" = JUndefined
  /\ timeouts "event" = JNum 21600000
  /\ fst (checkTimeouts (keyed_by_id "event" (JStr "42")) data
            (fresh Sample.empty 1000000000))
     = Returned (Some data).
Proof.
  cbn zeta. split; [reflexivity | split; [reflexivity |]].
  exact (proj1
    (checkTimeouts_keeps_unreadable_age (keyed_by_id "event" (JStr "42"))
       {| Store.rowCount := 1; Store.rows := [[("name", JStr "Concert")]] |}
       (fresh Sample.empty 1000000000) [("name", JStr "Concert")] []
       eq_refl eq_refl eq_refl)).
Defined.

Lemma timeouts_entry name ttl :
  timeouts name = JNum ttl ->
  In name ["weather"; "yelp"; "movie"; "event"; "trail"].
Proof.
  unfold timeouts.
  repeat match goal with
         | |- context [String.eqb name ?k] =>
             destruct (String.eqb_spec name k) as [-> | ?]; [cbn; tauto |]
         end.
  discriminate.
Qed.

Lemma delete_parses sqlInfo ttl :
  timeouts (endpoint sqlInfo) = JNum ttl ->
  Store.parse (sql (delete_query sqlInfo))
  = Some (Store.DeleteRows (endpoint sqlInfo) "location_id").
Proof.
  intros H. apply timeouts_entry in H. unfold delete_query. cbn [sql].
  cbn [In] in H.
  destruct H as [<- | [<- | [<- | [<- | [<- | []]]]]]; reflexivity.
Qed.

Lemma filter_out_then_in {X} (f : X -> bool) l :
  filter f (filter (fun x => negb (f x)) l) = [].
Proof.
  induction l as [| x l IH]; [reflexivity |].
  cbn. destruct (f x) eqn:Hx; cbn; [exact IH | now rewrite Hx].
Qed.

(** X4. When [checkTimeouts] judges the data of an endpoint that has a
    timeout stale, the DELETE it sends leaves no row of that endpoint's
    table for the id, keeps every row of the table that belongs to
    another id, and touches no other table. *)
Theorem checkTimeouts_eviction_empties_the_key
  (sqlInfo : SqlInfo) (sqlData : Store.Result) (w : World)
  (first : obj) (rest : list obj) (ttl created : Z) :
  timeouts (endpoint sqlInfo) = JNum ttl ->
  Store.rowCount sqlData > 0 ->
  Store.rows sqlData = first :: rest ->
  to_number (get first "created_at") = Some created ->
  clock w - created > ttl ->
  let st' := store (snd (checkTimeouts sqlInfo sqlData w)) in
  Store.rows (Store.select st' (endpoint sqlInfo) "location_id" [id sqlInfo]) = []
  /\ Store.rows_of st' (endpoint sqlInfo)
     = filter (fun row => negb (Store.matches "location_id" [id sqlInfo] row))
              (Store.rows_of (store w) (endpoint sqlInfo))
  /\ (forall other, other <> endpoint sqlInfo ->
        Store.rows_of st' other = Store.rows_of (store w) other).
Proof.
  intros Httl Hc Hr Hcreated Hstale st'. subst st'.
  rewrite (checkTimeouts_evicted sqlInfo sqlData w first rest Hc Hr).
  2: { unfold gt, sub. rewrite Httl, Hcreated. cbn. apply Z.gtb_lt. lia. }
  cbn [snd]. unfold client_query, Store.run.
  rewrite (delete_parses sqlInfo ttl Httl).
  unfold Store.delete, delete_query. cbn [params snd store extend].
  unfold Store.select, Store.rows_of. cbn [Store.tables Store.rows].
  rewrite table_set_table. split; [apply filter_out_then_in | split; [reflexivity |]].
  intros other Hne. now apply table_set_table_other.
Qed.

(** ** More on the runs of the shape *)

Section OutcomeMore.

Context {A : Type}.
Variables (tb : string) (key : jsval).
Variable on_hit : Store.Result -> Body.
Variables (before : list Effect) (url : string) (banner : list Effect).
Variable make : Z -> A -> obj.
Variable noisy : bool.
Variable cols : list string.

Hypothesis before_chatter : forallb chatter before = true.
Hypothesis banner_chatter : forallb chatter banner = true.

Lemma insert_all_exact ss st :
  Store.rows_of (insert_all tb cols st ss) tb
  = Store.rows_of st tb ++ stored_rows (Store.next_id st) cols ss
  /\ forall other, other <> tb ->
       Store.rows_of (insert_all tb cols st ss) other = Store.rows_of st other.
Proof.
  revert st. induction ss as [| s ss IH]; intros st.
  - cbn. now rewrite app_nil_r.
  - cbn [insert_all fold_left stored_rows].
    destruct (IH (fst (Store.insert st tb cols false (JS.values s)))) as [Hrows Hother].
    unfold insert_all in Hrows, Hother. split.
    + rewrite Hrows, rows_of_insert, <- app_assoc. reflexivity.
    + intros other Hne. rewrite (Hother other Hne).
      now apply rows_of_insert_other.
Qed.

Lemma save_effects_queries ss :
  queries (flat_map (save_effects tb key noisy) ss)
  = map (fun s => saveDataToDB_query (with_record (keyed_by_id tb key) s)) ss.
Proof.
  induction ss as [| s ss IH]; [reflexivity |].
  cbn [flat_map map]. rewrite queries_app, IH.
  unfold save_effects. destruct noisy; reflexivity.
Qed.

Lemma save_effects_quiet ss :
  responses (flat_map (save_effects tb key noisy) ss) = []
  /\ fetches (flat_map (save_effects tb key noisy) ss) = [].
Proof.
  induction ss as [| s ss [Hr Hf]]; [now split |].
  cbn [flat_map]. rewrite responses_app, fetches_app, Hr, Hf.
  unfold save_effects. destruct noisy; now split.
Qed.

(** What a run adds to the statements, the upstream requests and the
    responses of the trace. *)
Lemma outcome_digest w answer :
  let w' := outcome tb key on_hit before url banner make noisy cols w answer in
  let ss := match answer with
            | Resolved records => summaries_of key make (clock w) records
            | Rejected _ => []
            end in
  queries (trace w')
  = queries (trace w)
    ++ getDataFromDB_query (keyed_by_id tb key)
       :: (if hit tb key w then []
           else map (fun s => saveDataToDB_query (with_record (keyed_by_id tb key) s)) ss)
  /\ fetches (trace w') = fetches (trace w) ++ (if hit tb key w then [] else [url])
  /\ List.length (responses (trace w')) = S (List.length (responses (trace w)))
  /\ Store.rows_of (store w') tb
     = Store.rows_of (store w) tb
       ++ (if hit tb key w then [] else stored_rows (Store.next_id (store w)) cols ss)
  /\ (forall other, other <> tb ->
        Store.rows_of (store w') other = Store.rows_of (store w) other).
Proof.
  destruct (chatter_silent _ before_chatter) as (_ & Hbr & Hbf & Hbq & _).
  destruct (chatter_silent _ banner_chatter) as (_ & Hnr & Hnf & Hnq & _).
  cbn zeta. unfold outcome, hit.
  destruct (Store.rows _) as [| first rest].
  - change (lookup_effect tb key :: before ++ [EFetch url])
      with ([lookup_effect tb key] ++ before ++ [EFetch url]).
    destruct answer as [err | [| x xs]]; cbn [extend trace store].
    + rewrite !queries_app, !fetches_app, !responses_app, Hbq, Hbf, Hbr, !length_app.
      cbn. rewrite !app_nil_r. repeat split. lia.
    + rewrite !queries_app, !fetches_app, !responses_app, Hbq, Hbf, Hbr,
        Hnq, Hnf, Hnr, !length_app.
      cbn. rewrite !app_nil_r. repeat split. lia.
    + destruct (save_effects_quiet (summaries_of key make (clock w) (x :: xs)))
        as [Hsr Hsf].
      destruct (insert_all_exact (summaries_of key make (clock w) (x :: xs)) (store w))
        as [Hrows Hother].
      rewrite !queries_app, !fetches_app, !responses_app, Hbq, Hbf, Hbr,
        Hnq, Hnf, Hnr, Hsr, Hsf, save_effects_queries, !length_app.
      split; [| split; [| split; [| split]]].
      * cbn. now rewrite app_nil_r.
      * reflexivity.
      * cbn. lia.
      * exact Hrows.
      * exact Hother.
  - cbn [extend trace store].
    change (lookup_effect tb key :: age_lines (keyed_by_id tb key) w first
              ++ [ESend 200 (on_hit (Store.select (store w) tb "location_id" [key]))])
      with ([lookup_effect tb key] ++ age_lines (keyed_by_id tb key) w first
              ++ [ESend 200 (on_hit (Store.select (store w) tb "location_id" [key]))]).
    rewrite !queries_app, !fetches_app, !responses_app, !length_app.
    cbn. rewrite !app_nil_r. repeat split. lia.
Qed.

End OutcomeMore.

(** ** Every route, in full *)

Lemma select_without_key st tb col key :
  has_key key = false -> Store.rows (Store.select st tb col [key]) = [].
Proof.
  intros Hkey. unfold Store.select. cbn [Store.rows].
  induction (Store.rows_of st tb) as [| r rs IH]; [reflexivity |].
  cbn [filter]. rewrite IH.
  unfold Store.matches, Store.sql_eq, Store.first_param. cbn [nth].
  destruct key; try discriminate; now destruct (get r col).
Qed.

Lemma served_digest host c st now :
  let w' := run host c st now in
  let built := match stored_for c st with
               | [] => built_for host c now
               | _ => []
               end in
  queries (trace w') = lookup_of c :: map (insert_of c) built
  /\ fetches (trace w')
     = match stored_for c st with [] => [url_of host c] | _ => [] end
  /\ List.length (responses (trace w')) = (if unanswered c then 0 else 1)%nat
  /\ Store.rows_of (store w') (table_of c)
     = Store.rows_of st (table_of c) ++ stored_rows (Store.next_id st) (cols_of c) built
  /\ (forall other, other <> table_of c ->
        Store.rows_of (store w') other = Store.rows_of st other).
Proof.
  cbn zeta. unfold run. rewrite serve_run. unfold stored_for.
  destruct c as [data a | data a | data a | data a | data a];
    cbn [served table_of key_column bound_key cols_of url_of unanswered].
  1: { unfold location_outcome, lookup_of, insert_of.
       cbn [fresh store clock trace table_of key_column bound_key info_of].
       assert (Hq : getDataFromDB_query (location_info data)
                    = {| sql := ("SELECT * FROM " ++ "locations" ++ " WHERE "
                                 ++ location_column data ++ "=$1;")%string;
                         params := [location_key data] |}).
       { unfold getDataFromDB_query, location_info, location_column, location_key.
         cbn [searchQuery id endpoint]. destruct (truthy data); reflexivity. }
       rewrite Hq.
       assert (Hfalsy : truthy data = false ->
                 Store.rows (Store.select st "locations" (location_column data)
                                          [location_key data]) = []).
       { intros Ht. apply select_without_key. unfold location_key. now rewrite Ht. }
       destruct (truthy data) eqn:Ht; [| rewrite (Hfalsy eq_refl)];
         [destruct (Store.rows _) as [| first rest] |];
         try destruct a as [err | [| place places]];
         cbn [extend trace store app built_for map stored_rows negb];
         rewrite ?app_nil_r; try (repeat split; reflexivity).
       all: repeat split; try reflexivity; try apply rows_of_insert;
         intros other Hne; now apply rows_of_insert_other. }
  all: match goal with
       | |- context [outcome ?tb ?key ?on_hit ?before ?url ?banner ?make ?noisy ?cols _ ?a] =>
           destruct (outcome_digest tb key on_hit before url banner make noisy cols
                       eq_refl eq_refl (fresh st now) a)
             as (Hq & Hf & Hr & Hrows & Hother)
       end;
    rewrite Hq, Hf, Hr, Hrows; unfold hit, lookup_of, insert_of;
    cbn [fresh store clock trace table_of key_column bound_key info_of app List.length];
    destruct (Store.rows _) as [| first rest]; destruct a as [err | records];
    cbn [built_for map stored_rows]; repeat split; try reflexivity; exact Hother.
Qed.

(** ** What the handlers build *)

(** What a handler builds has the columns of its route, no [id], and
    the key of the call in the key column. *)
Lemma built_for_shape host c now :
  Forall (fun o => keys o = cols_of c /\ has o "id" = false) (built_for host c now)
  /\ (has_key (bound_key c) = true ->
      Forall (fun o => has o (key_column c) = true /\ get o (key_column c) = bound_key c)
             (built_for host c now))
  /\ List.length (built_for host c now) = upstream_records c.
Proof.
  destruct c as [data a | data a | data a | data a | data a];
    destruct a as [err | records];
    cbn [built_for cols_of key_column bound_key upstream_records];
    try (split; [constructor | split; [constructor | reflexivity]]).
  1: { destruct records as [| place places];
         [split; [constructor | split; [constructor | reflexivity]] |].
       split; [repeat constructor | split; [| reflexivity]].
       unfold location_key, location_column.
       destruct (truthy data); [| discriminate].
       intros _. repeat constructor. }
  all: unfold summaries_of; split; [| split];
    [ apply Forall_map, Forall_forall; intros x _; repeat split
    | intros _; apply Forall_map, Forall_forall; intros x _; repeat split
    | apply length_map ].
Qed.

Lemma insert_of_parses c o :
  keys o = cols_of c -> is_insert (insert_of c o) = true.
Proof.
  intros Hkeys. unfold is_insert, insert_of, saveDataToDB_query, with_record.
  destruct c as [data a | data a | data a | data a | data a];
    cbn [info_of location_info keyed_by_id table_of searchQuery endpoint columns
         values truthy cols_of] in *;
    rewrite values_length, Hkeys; try reflexivity.
  destruct (truthy data); reflexivity.
Qed.

Lemma lookup_of_parses c :
  Store.parse (sql (lookup_of c)) = Some (Store.SelectAll (table_of c) (key_column c)).
Proof.
  unfold lookup_of.
  destruct c as [data a | data a | data a | data a | data a];
    cbn [sql table_of key_column]; try reflexivity.
  unfold location_column. destruct (truthy data); reflexivity.
Qed.

(** ** What a request does, on every route *)

(** X6. A request leaves every table but the one of its route as it
    was. *)
Theorem a_request_changes_only_its_table (host : Host) (c : Call)
        (st : Store.t) (now : Z) (other : string) :
  other <> table_of c ->
  Store.rows_of (store (run host c st now)) other = Store.rows_of st other.
Proof.
  intros Hne.
  exact (proj2 (proj2 (proj2 (proj2 (served_digest host c st now)))) other Hne).
Qed.

Lemma a_request_changes_only_its_table_witness :
  "locations"%string <> table_of (GetWeather Sample.seattle (Resolved Sample.three_days))
  /\ Store.rows_of
       (store (run Sample.host (GetWeather Sample.seattle (Resolved Sample.three_days))
                   Sample.with_seattle 0))
       "locations"
     = Store.rows_of Sample.with_seattle "locations".
Proof.
  assert (Hne : "locations"%string
                <> table_of (GetWeather Sample.seattle (Resolved Sample.three_days)))
    by discriminate.
  split; [exact Hne |].
  exact (a_request_changes_only_its_table Sample.host
           (GetWeather Sample.seattle (Resolved Sample.three_days))
           Sample.with_seattle 0 "locations" Hne).
Defined.

(** X7. The statements of a request are the lookup, a SELECT, followed
    on a miss by one INSERT per object the handler built from the
    upstream answer, and by nothing on a hit.  No handler ever sends a
    DELETE. *)
Theorem a_request_sends_a_lookup_and_inserts (host : Host) (c : Call)
        (st : Store.t) (now : Z) :
  let tr := trace (run host c st now) in
  let built := match stored_for c st with
               | [] => built_for host c now
               | _ => []
               end in
  queries tr = lookup_of c :: map (insert_of c) built
  /\ Store.parse (sql (lookup_of c))
     = Some (Store.SelectAll (table_of c) (key_column c))
  /\ forallb is_insert (map (insert_of c) built) = true
  /\ existsb is_delete (queries tr) = false.
Proof.
  cbn zeta.
  assert (Hins : forallb is_insert
                   (map (insert_of c)
                        (match stored_for c st with
                         | [] => built_for host c now
                         | _ => []
                         end)) = true).
  { destruct (stored_for c st); [| reflexivity].
    destruct (built_for_shape host c now) as (Hshape & _).
    induction Hshape as [| o os [Hkeys _] _ IH]; [reflexivity |].
    cbn [map forallb]. rewrite (insert_of_parses c o Hkeys). exact IH. }
  destruct (served_digest host c st now) as (Hq & _).
  cbn zeta in Hq. rewrite Hq.
  split; [reflexivity | split; [apply lookup_of_parses | split; [exact Hins |]]].
  cbn [existsb]. unfold is_delete at 1. rewrite lookup_of_parses. cbn [orb].
  revert Hins. generalize (map (insert_of c)
                             (match stored_for c st with
                              | [] => built_for host c now
                              | _ => []
                              end)).
  intros qs. induction qs as [| q qs IH]; [reflexivity |].
  cbn [forallb existsb]. intros [Hq1 Hqs]%andb_true_iff.
  rewrite (IH Hqs), orb_false_r.
  unfold is_insert in Hq1. unfold is_delete.
  destruct (Store.parse (sql q)) as [[| |] |]; congruence.
Qed.

Lemma stored_for_rows c st :
  stored_for c st
  = filter (fun row => Store.sql_eq (get row (key_column c)) (bound_key c))
           (Store.rows_of st (table_of c)).
Proof. reflexivity. Qed.

(** X11. A request whose key is missing (no [id] in the request, or an
    empty or absent search string) never finds a row, whatever the
    store holds: its lookup resolves with no rows, and the handler then
    asks upstream, once. *)
Theorem a_request_without_key_always_asks_upstream (host : Host) (c : Call)
        (st : Store.t) (now : Z) :
  has_key (bound_key c) = false ->
  stored_for c st = []
  /\ fetches (trace (run host c st now)) = [url_of host c].
Proof.
  intros Hkey.
  assert (Hmiss : stored_for c st = []) by now apply select_without_key.
  destruct (served_digest host c st now) as (_ & Hf & _).
  cbn zeta in Hf. rewrite Hmiss in Hf.
  split; [exact Hmiss | exact Hf].
Qed.

Lemma a_request_without_key_always_asks_upstream_witness :
  let c := GetWeather [("latitude", JStr "47.6"); ("longitude", JStr "-122.3")]
                      (Resolved Sample.three_days) in
  has_key (bound_key c) = false
  /\ stored_for c Sample.with_weather = []
  /\ fetches (trace (run Sample.host c Sample.with_weather 0))
     = ["https://api.darksky.net/forecast/sky-key/47.6,-122.3"%string].
Proof.
  cbn zeta. split; [reflexivity |].
  destruct (a_request_without_key_always_asks_upstream Sample.host
              (GetWeather [("latitude", JStr "47.6"); ("longitude", JStr "-122.3")]
                          (Resolved Sample.three_days))
              Sample.with_weather 0 eq_refl) as (Hmiss & Hf).
  split; [exact Hmiss | exact Hf].
Defined.

Lemma checkTimeouts_eviction_empties_the_key_witness :
  let st := Store.mk [("weather", [ [("id", JNum 1); ("location_id", JStr "42");
                                     ("created_at", JNum 0)];
                                    [("id", JNum 2); ("location_id", JStr "7");
                                     ("created_at", JNum 0)] ])] 3 in
  let info := keyed_by_id "weather" (JStr "42") in
  let data := Store.select st "weather" "location_id" [JStr "42"] in
  16000 - 0 > 15000
  /\ Store.rows data <> []
  /\ Store.rows (Store.select (store (snd (checkTimeouts info data (fresh st 16000))))
                              "weather" "location_id" [JStr "42"]) = []
  /\ Store.rows_of (store (snd (checkTimeouts info data (fresh st 16000)))) "weather"
     = [ [("id", JNum 2); ("location_id", JStr "7"); ("created_at", JNum 0)] ].
Proof.
  cbn zeta. split; [reflexivity | split; [discriminate |]].
  destruct (checkTimeouts_eviction_empties_the_key
              (keyed_by_id "weather" (JStr "42"))
              (Store.select
                 (Store.mk [("weather", [ [("id", JNum 1); ("location_id", JStr "42");
                                           ("created_at", JNum 0)];
                                          [("id", JNum 2); ("location_id", JStr "7");
                                           ("created_at", JNum 0)] ])] 3)
                 "weather" "location_id" [JStr "42"])
              (fresh (Store.mk [("weather", [ [("id", JNum 1); ("location_id", JStr "42");
                                               ("created_at", JNum 0)];
                                              [("id", JNum 2); ("location_id", JStr "7");
                                               ("created_at", JNum 0)] ])] 3) 16000)
              [("id", JNum 1); ("location_id", JStr "42"); ("created_at", JNum 0)] []
              15000 0 eq_refl eq_refl eq_refl eq_refl eq_refl)
    as (Hgone & Hkept & _).
  split; [exact Hgone | exact Hkept].
Defined.

(** X13. What a hit sends depends neither on the time of the request nor
    on what upstream would answer: two requests for the same key, at
    any two times and with any two upstream answers, are sent the same
    response from the same store, which both leave as it is. *)
Theorem a_hit_ignores_time_and_upstream (host : Host) (c1 c2 : Call)
        (st : Store.t) (t1 t2 : Z) :
  stored_for c1 st <> [] ->
  same_key c1 c2 ->
  responses (trace (run host c1 st t1)) = responses (trace (run host c2 st t2))
  /\ store (run host c1 st t1) = st
  /\ store (run host c2 st t2) = st
  /\ fetches (trace (run host c1 st t1)) = []
  /\ fetches (trace (run host c2 st t2)) = [].
Proof.
  intros Hhit (Htb & Hcol & Hbound).
  assert (Hsame : stored_for c2 st = stored_for c1 st).
  { rewrite !stored_for_rows, Htb, Hcol, Hbound. reflexivity. }
  assert (Hhit2 : stored_for c2 st <> []) by now rewrite Hsame.
  destruct (a_hit_is_always_served host c1 st t1 Hhit) as (Hs1 & Hf1 & Hr1).
  destruct (a_hit_is_always_served host c2 st t2 Hhit2) as (Hs2 & Hf2 & Hr2).
  repeat split; try assumption.
  rewrite Hr1, Hr2. unfold hit_body. rewrite Hsame.
  destruct c1, c2; try discriminate Htb; reflexivity.
Qed.

Lemma a_hit_ignores_time_and_upstream_witness :
  let c1 := GetWeather Sample.seattle (Resolved Sample.three_days) in
  let c2 := GetWeather Sample.seattle (Rejected (JStr "ETIMEDOUT")) in
  stored_for c1 Sample.with_weather <> []
  /\ responses (trace (run Sample.host c1 Sample.with_weather 1000))
     = responses (trace (run Sample.host c2 Sample.with_weather 86400000)).
Proof.
  cbn zeta.
  assert (Hhit : stored_for (GetWeather Sample.seattle (Resolved Sample.three_days))
                            Sample.with_weather <> [])
    by (vm_compute; discriminate).
  split; [exact Hhit |].
  exact (proj1
    (a_hit_ignores_time_and_upstream Sample.host
       (GetWeather Sample.seattle (Resolved Sample.three_days))
       (GetWeather Sample.seattle (Rejected (JStr "ETIMEDOUT")))
       Sample.with_weather 1000 86400000 Hhit
       (conj eq_refl (conj eq_refl eq_refl)))).
Defined.
